(** * spimagine: the volume renderer's orchestration layer

    A shallow embedding of [spimagine/volume_render.py] (class
    [VolumeRenderer]): the renderer object is a record, its methods are
    computations in a state-and-exception monad whose state survives a
    raised exception (as the attributes of a Python object do), and the
    OpenCL device, the numpy/scipy numerics and the ray-casting kernel sit
    behind a [Backend] interface.

    Numbers.  Pixel and byte counts are [nat].  numpy floating-point
    scalars are idealised as exact rationals [Q]: rounding is not modelled,
    and conversions between element types are functions of the backend. *)

From Stdlib Require Import List Arith Lia Bool QArith.
Import ListNotations.
Close Scope Q_scope.
Open Scope nat_scope.

Set Implicit Arguments.

(** ** numpy element types and arrays *)

Inductive np_dtype : Type :=
  | float32 | uint16 | uint8 | int16 | int32 | int64 | float64.

Definition itemsize (d : np_dtype) : nat :=
  match d with
  | uint8 => 1
  | uint16 | int16 => 2
  | float32 | int32 => 4
  | int64 | float64 => 8
  end.

Definition dtype_eqb (a b : np_dtype) : bool :=
  match a, b with
  | float32, float32 | uint16, uint16 | uint8, uint8 | int16, int16
  | int32, int32 | int64, int64 | float64, float64 => true
  | _, _ => false
  end.

(** [x in self.dtypes] *)
Definition dtype_in (d : np_dtype) (l : list np_dtype) : bool :=
  existsb (dtype_eqb d) l.

(** An n-dimensional array: the type class of its dtype
    ([a.dtype.type]), whether the dtype is in non-native byte order (then
    [a.dtype] equals no type class; never so for a one-byte type), the
    shape and the elements in row-major order. *)
Record ndarray : Type := {
  arr_dtype : np_dtype;
  arr_swapped : bool;
  arr_shape : list nat;
  arr_flat : list Q
}.

(** [a.dtype == t] for a type class [t]: numpy compares the dtype with
    the native dtype of [t]. *)
Definition has_dtype (a : ndarray) (t : np_dtype) : bool :=
  dtype_eqb (arr_dtype a) t && negb (arr_swapped a).

(** [a.dtype in self.dtypes] *)
Definition dtype_supported (a : ndarray) (l : list np_dtype) : bool :=
  existsb (has_dtype a) l.

Definition prod_shape (sh : list nat) : nat := fold_right Nat.mul 1 sh.

(** [data.nbytes] *)
Definition nbytes (a : ndarray) : nat :=
  itemsize (arr_dtype a) * prod_shape (arr_shape a).

(** A Python [slice(start, stop, step)]. *)
Record slice : Type := { sl_start : nat; sl_stop : nat; sl_step : nat }.

(** Matrices are two-dimensional arrays of scalars, given by rows. *)
Definition matrix : Type := list (list Q).

(** A matrix with as many rows as columns, and at least one. *)
Definition is_square (m : matrix) : bool :=
  negb (length m =? 0) && forallb (fun row => length row =? length m) m.

(** A device image as [createImage] returns it: its shape, its channel
    type, its channel order ([Rx] on the CPU device) and what
    [writeImage] last put into it. *)
Record cl_image : Type := {
  img_shape : list nat;
  img_channel : np_dtype;
  img_order_Rx : bool;
  img_data : option ndarray
}.

(** The argument list of one [runKernel("max_project", ...)] call; the
    three device objects are passed with their contents at dispatch. *)
Record kernel_args : Type := {
  ka_width : nat;
  ka_height : nat;
  ka_box : list Q;
  ka_maxVal : Q;
  ka_gamma : Q;
  ka_invP : list Q;
  ka_invM : list Q;
  ka_img : cl_image;
  ka_isUint16 : bool
}.

(** ** The external collaborators

    numpy's element conversion ([astype], [np.float32(x)]),
    [scipy.linalg.inv] (it returns for square matrices only; [None] for
    a singular one), the contents of a freshly
    created device buffer, and the [max_project] kernel of
    [kernels/volume_render.cl], which is not among the sources at hand:
    it is a parameter, with the contract the specification gives it, that
    it writes width x height values into the output buffer, computed from
    its arguments. *)
Class Backend : Type := {
  np_cast : np_dtype -> Q -> Q;
  linalg_inv : matrix -> option matrix;
  linalg_inv_square :
    forall m i, linalg_inv m = Some i -> is_square m = true;
  fresh_buffer : nat -> list Q;
  fresh_buffer_length : forall n, length (fresh_buffer n) = n;
  max_project : kernel_args -> list Q;
  max_project_length :
    forall a, length (max_project a) = ka_width a * ka_height a
}.

(** ** The renderer object

    One field per attribute of [self].  The attributes the source tests
    with [hasattr], and those only [set_data] creates, are options
    ([None]: the attribute does not exist); [dataSlices] holds a Python
    value that is itself [None] or a list of slices.  [kernel_log]
    records the kernel dispatches of [self.proc], newest first. *)
Record renderer : Type := {
  isGPU : bool;
  dtypes : list np_dtype;
  memMax : nat;
  width : nat;
  height : nat;
  buf : list Q;
  invMBuf : list Q;
  invPBuf : list Q;
  dtype : option np_dtype;
  gamma : Q;
  maxVal : Q;
  boxBounds : list Q;
  stackUnits : list Q;
  modelView : option matrix;
  projection : matrix;
  dataSlices : option (option (list slice));
  dataImg : option cl_image;
  _data : option ndarray;
  kernel_log : list kernel_args
}.

Definition with_buf (v : list Q) (r : renderer) : renderer :=
  {| isGPU := isGPU r; dtypes := dtypes r; memMax := memMax r;
     width := width r; height := height r; buf := v; invMBuf := invMBuf r;
     invPBuf := invPBuf r; dtype := dtype r; gamma := gamma r;
     maxVal := maxVal r; boxBounds := boxBounds r;
     stackUnits := stackUnits r; modelView := modelView r;
     projection := projection r; dataSlices := dataSlices r;
     dataImg := dataImg r; _data := _data r; kernel_log := kernel_log r |}.

Definition with_invMBuf (v : list Q) (r : renderer) : renderer :=
  {| isGPU := isGPU r; dtypes := dtypes r; memMax := memMax r;
     width := width r; height := height r; buf := buf r; invMBuf := v;
     invPBuf := invPBuf r; dtype := dtype r; gamma := gamma r;
     maxVal := maxVal r; boxBounds := boxBounds r;
     stackUnits := stackUnits r; modelView := modelView r;
     projection := projection r; dataSlices := dataSlices r;
     dataImg := dataImg r; _data := _data r; kernel_log := kernel_log r |}.

Definition with_invPBuf (v : list Q) (r : renderer) : renderer :=
  {| isGPU := isGPU r; dtypes := dtypes r; memMax := memMax r;
     width := width r; height := height r; buf := buf r;
     invMBuf := invMBuf r; invPBuf := v; dtype := dtype r; gamma := gamma r;
     maxVal := maxVal r; boxBounds := boxBounds r;
     stackUnits := stackUnits r; modelView := modelView r;
     projection := projection r; dataSlices := dataSlices r;
     dataImg := dataImg r; _data := _data r; kernel_log := kernel_log r |}.

Definition with_dtype (v : option np_dtype) (r : renderer) : renderer :=
  {| isGPU := isGPU r; dtypes := dtypes r; memMax := memMax r;
     width := width r; height := height r; buf := buf r;
     invMBuf := invMBuf r; invPBuf := invPBuf r; dtype := v;
     gamma := gamma r; maxVal := maxVal r; boxBounds := boxBounds r;
     stackUnits := stackUnits r; modelView := modelView r;
     projection := projection r; dataSlices := dataSlices r;
     dataImg := dataImg r; _data := _data r; kernel_log := kernel_log r |}.

Definition with_gamma (v : Q) (r : renderer) : renderer :=
  {| isGPU := isGPU r; dtypes := dtypes r; memMax := memMax r;
     width := width r; height := height r; buf := buf r;
     invMBuf := invMBuf r; invPBuf := invPBuf r; dtype := dtype r;
     gamma := v; maxVal := maxVal r; boxBounds := boxBounds r;
     stackUnits := stackUnits r; modelView := modelView r;
     projection := projection r; dataSlices := dataSlices r;
     dataImg := dataImg r; _data := _data r; kernel_log := kernel_log r |}.

Definition with_maxVal (v : Q) (r : renderer) : renderer :=
  {| isGPU := isGPU r; dtypes := dtypes r; memMax := memMax r;
     width := width r; height := height r; buf := buf r;
     invMBuf := invMBuf r; invPBuf := invPBuf r; dtype := dtype r;
     gamma := gamma r; maxVal := v; boxBounds := boxBounds r;
     stackUnits := stackUnits r; modelView := modelView r;
     projection := projection r; dataSlices := dataSlices r;
     dataImg := dataImg r; _data := _data r; kernel_log := kernel_log r |}.

Definition with_boxBounds (v : list Q) (r : renderer) : renderer :=
  {| isGPU := isGPU r; dtypes := dtypes r; memMax := memMax r;
     width := width r; height := height r; buf := buf r;
     invMBuf := invMBuf r; invPBuf := invPBuf r; dtype := dtype r;
     gamma := gamma r; maxVal := maxVal r; boxBounds := v;
     stackUnits := stackUnits r; modelView := modelView r;
     projection := projection r; dataSlices := dataSlices r;
     dataImg := dataImg r; _data := _data r; kernel_log := kernel_log r |}.

Definition with_stackUnits (v : list Q) (r : renderer) : renderer :=
  {| isGPU := isGPU r; dtypes := dtypes r; memMax := memMax r;
     width := width r; height := height r; buf := buf r;
     invMBuf := invMBuf r; invPBuf := invPBuf r; dtype := dtype r;
     gamma := gamma r; maxVal := maxVal r; boxBounds := boxBounds r;
     stackUnits := v; modelView := modelView r; projection := projection r;
     dataSlices := dataSlices r; dataImg := dataImg r; _data := _data r;
     kernel_log := kernel_log r |}.

Definition with_modelView (v : option matrix) (r : renderer) : renderer :=
  {| isGPU := isGPU r; dtypes := dtypes r; memMax := memMax r;
     width := width r; height := height r; buf := buf r;
     invMBuf := invMBuf r; invPBuf := invPBuf r; dtype := dtype r;
     gamma := gamma r; maxVal := maxVal r; boxBounds := boxBounds r;
     stackUnits := stackUnits r; modelView := v; projection := projection r;
     dataSlices := dataSlices r; dataImg := dataImg r; _data := _data r;
     kernel_log := kernel_log r |}.

Definition with_projection (v : matrix) (r : renderer) : renderer :=
  {| isGPU := isGPU r; dtypes := dtypes r; memMax := memMax r;
     width := width r; height := height r; buf := buf r;
     invMBuf := invMBuf r; invPBuf := invPBuf r; dtype := dtype r;
     gamma := gamma r; maxVal := maxVal r; boxBounds := boxBounds r;
     stackUnits := stackUnits r; modelView := modelView r; projection := v;
     dataSlices := dataSlices r; dataImg := dataImg r; _data := _data r;
     kernel_log := kernel_log r |}.

Definition with_dataSlices (v : option (option (list slice))) (r : renderer) : renderer :=
  {| isGPU := isGPU r; dtypes := dtypes r; memMax := memMax r;
     width := width r; height := height r; buf := buf r;
     invMBuf := invMBuf r; invPBuf := invPBuf r; dtype := dtype r;
     gamma := gamma r; maxVal := maxVal r; boxBounds := boxBounds r;
     stackUnits := stackUnits r; modelView := modelView r;
     projection := projection r; dataSlices := v; dataImg := dataImg r;
     _data := _data r; kernel_log := kernel_log r |}.

Definition with_dataImg (v : option cl_image) (r : renderer) : renderer :=
  {| isGPU := isGPU r; dtypes := dtypes r; memMax := memMax r;
     width := width r; height := height r; buf := buf r;
     invMBuf := invMBuf r; invPBuf := invPBuf r; dtype := dtype r;
     gamma := gamma r; maxVal := maxVal r; boxBounds := boxBounds r;
     stackUnits := stackUnits r; modelView := modelView r;
     projection := projection r; dataSlices := dataSlices r; dataImg := v;
     _data := _data r; kernel_log := kernel_log r |}.

Definition with_data (v : option ndarray) (r : renderer) : renderer :=
  {| isGPU := isGPU r; dtypes := dtypes r; memMax := memMax r;
     width := width r; height := height r; buf := buf r;
     invMBuf := invMBuf r; invPBuf := invPBuf r; dtype := dtype r;
     gamma := gamma r; maxVal := maxVal r; boxBounds := boxBounds r;
     stackUnits := stackUnits r; modelView := modelView r;
     projection := projection r; dataSlices := dataSlices r;
     dataImg := dataImg r; _data := v; kernel_log := kernel_log r |}.

Definition with_kernel_log (v : list kernel_args) (r : renderer) : renderer :=
  {| isGPU := isGPU r; dtypes := dtypes r; memMax := memMax r;
     width := width r; height := height r; buf := buf r;
     invMBuf := invMBuf r; invPBuf := invPBuf r; dtype := dtype r;
     gamma := gamma r; maxVal := maxVal r; boxBounds := boxBounds r;
     stackUnits := stackUnits r; modelView := modelView r;
     projection := projection r; dataSlices := dataSlices r;
     dataImg := dataImg r; _data := _data r; kernel_log := v |}.

Definition with_size (w h : nat) (r : renderer) : renderer :=
  {| isGPU := isGPU r; dtypes := dtypes r; memMax := memMax r; width := w;
     height := h; buf := buf r; invMBuf := invMBuf r; invPBuf := invPBuf r;
     dtype := dtype r; gamma := gamma r; maxVal := maxVal r;
     boxBounds := boxBounds r; stackUnits := stackUnits r;
     modelView := modelView r; projection := projection r;
     dataSlices := dataSlices r; dataImg := dataImg r; _data := _data r;
     kernel_log := kernel_log r |}.

Definition with_device (g : bool) (ts : list np_dtype) (m : nat) (r : renderer)
  : renderer :=
  {| isGPU := g; dtypes := ts; memMax := m; width := width r;
     height := height r; buf := buf r; invMBuf := invMBuf r;
     invPBuf := invPBuf r; dtype := dtype r; gamma := gamma r;
     maxVal := maxVal r; boxBounds := boxBounds r;
     stackUnits := stackUnits r; modelView := modelView r;
     projection := projection r; dataSlices := dataSlices r;
     dataImg := dataImg r; _data := _data r; kernel_log := kernel_log r |}.
(** ** Exceptions and the method monad *)

Inductive exn : Type :=
  | NotImplementedError (required : list np_dtype) (given : np_dtype)
  | ValueError
  | ZeroDivisionError
  | LinAlgError
  | AttributeError
  | IndexError.

Inductive outcome (A : Type) : Type :=
  | Val (a : A)
  | Raise (e : exn).
Arguments Raise {A} e.

(** A method body: it runs on the object and either returns a value or
    raises, and in both cases leaves the object as mutated so far. *)
Definition M (A : Type) : Type := renderer -> outcome A * renderer.

Definition ret {A} (a : A) : M A := fun r => (Val a, r).

Definition bind {A B} (c : M A) (k : A -> M B) : M B :=
  fun r =>
    match c r with
    | (Val a, r') => k a r'
    | (Raise e, r') => (Raise e, r')
    end.

Definition raise {A} (e : exn) : M A := fun r => (Raise e, r).
Definition get : M renderer := fun r => (Val r, r).
Definition modify (f : renderer -> renderer) : M unit := fun r => (Val tt, f r).

(** Reading an attribute that may not exist. *)
Definition getattr {A} (f : renderer -> option A) : M A :=
  fun r => match f r with
           | Some a => (Val a, r)
           | None => (Raise AttributeError, r)
           end.

Declare Scope py_scope.
Delimit Scope py_scope with py.
Notation "x <- c ;; k" := (bind c (fun x => k))
  (at level 61, c at next level, right associativity) : py_scope.
Notation "c ;; k" := (bind c (fun _ => k))
  (at level 61, right associativity) : py_scope.
Local Open Scope py_scope.

(** ** numpy and Python helpers *)

(** The number of indices in [range(0, n, s)], for [s > 0]. *)
Definition ceil_div (n s : nat) : nat := (n + s - 1) / s.

(** The length of axis [d] after indexing it with slice [s]. *)
Definition slice_len (d : nat) (s : slice) : nat :=
  ceil_div (Nat.min (sl_stop s) d - sl_start s) (sl_step s).

Fixpoint slice_shape (sh : list nat) (sl : list slice) : list nat :=
  match sh, sl with
  | d :: sh', s :: sl' => slice_len d s :: slice_shape sh' sl'
  | _, _ => sh
  end.

Fixpoint chunks (sz n : nat) (l : list Q) : list (list Q) :=
  match n with
  | 0 => []
  | S n' => firstn sz l :: chunks sz n' (skipn sz l)
  end.

Fixpoint every_nth_from {A} (step k : nat) (l : list A) : list A :=
  match l with
  | [] => []
  | x :: t =>
      match k with
      | 0 => x :: every_nth_from step (step - 1) t
      | S k' => every_nth_from step k' t
      end
  end.

Definition select {A} (s : slice) (l : list A) : list A :=
  every_nth_from (sl_step s) 0 (skipn (sl_start s) (firstn (sl_stop s) l)).

Fixpoint slice_flat (sh : list nat) (sl : list slice) (l : list Q) : list Q :=
  match sh, sl with
  | d :: sh', s :: sl' =>
      concat (map (slice_flat sh' sl') (select s (chunks (prod_shape sh') d l)))
  | _, _ => l
  end.

(** The array [a[slices]] for at most one slice per axis, each with a
    positive step; axes without a slice are kept whole. *)
Definition getitem (a : ndarray) (sl : list slice) : ndarray :=
  {| arr_dtype := arr_dtype a;
     arr_swapped := arr_swapped a;
     arr_shape := slice_shape (arr_shape a) sl;
     arr_flat := slice_flat (arr_shape a) sl (arr_flat a) |}.

(** [a[slices]]: more slices than the array has axes is an
    IndexError, a slice of step zero a ValueError. *)
Definition py_getitem (a : ndarray) (sl : list slice) : M ndarray :=
  if length (arr_shape a) <? length sl
  then raise IndexError
  else if existsb (fun s => sl_step s =? 0) sl
       then raise ValueError
       else ret (getitem a sl).

(** [a.astype(d)], in native byte order. *)
Definition astype {B : Backend} (a : ndarray) (d : np_dtype) : ndarray :=
  {| arr_dtype := d;
     arr_swapped := false;
     arr_shape := arr_shape a;
     arr_flat := map (np_cast d) (arr_flat a) |}.

Definition ceil_sqrt (n : nat) : nat :=
  let r := Nat.sqrt n in if r * r =? n then r else S r.

(** [int(np.ceil(np.sqrt(1.*p/q)))] for [q > 0], evaluated exactly: the
    least [s] whose square is at least the ratio [p/q]. *)
Definition ceil_sqrt_ratio (p q : nat) : nat := ceil_sqrt (ceil_div p q).

Definition Qnat (n : nat) : Q := inject_Z (Z.of_nat n).

(** Python's [max] over a non-empty sequence: a later item replaces the
    current maximum only when it is strictly greater. *)
Definition py_max (x : Q) (rest : list Q) : Q :=
  fold_left (fun cur y => if Qle_bool y cur then cur else y) rest x.

(** [bool(a)] of a numpy array: false when empty, the element's truth
    value when it has one element, an error otherwise. *)
Definition array_truth (m : matrix) : M bool :=
  match concat m with
  | [] => ret false
  | [x] => ret (negb (Qeq_bool x 0))
  | _ :: _ :: _ => raise ValueError
  end.

Definition ncols (m : matrix) : nat :=
  match m with
  | [] => 0
  | row :: _ => length row
  end.

Definition vec_add (u v : list Q) : list Q :=
  map (fun p => Qplus (fst p) (snd p)) (combine u v).

Definition dot_row (Bm : matrix) (row : list Q) : list Q :=
  fold_left (fun acc p => vec_add acc (map (Qmult (fst p)) (snd p)))
            (combine row Bm) (repeat 0%Q (ncols Bm)).

(** [np.dot(A, B)] of two matrices; the shapes must be aligned. *)
Definition np_dot (A Bm : matrix) : M matrix :=
  if forallb (fun row => length row =? length Bm) A
  then ret (map (dot_row Bm) A)
  else raise ValueError.

(** [scipy.linalg.inv(m)]: a ValueError for a matrix that is not
    square, a LinAlgError for a singular one.  (The ValueError for an
    entry that is not finite has no counterpart here: the scalars are
    rationals.) *)
Definition py_inv {B : Backend} (m : matrix) : M matrix :=
  if is_square m
  then match linalg_inv m with
       | Some i => ret i
       | None => raise LinAlgError
       end
  else raise ValueError.

(** [a.reshape(n, m)] of a one-dimensional float32 array. *)
Definition reshape2 (flat : list Q) (n m : nat) : M ndarray :=
  if length flat =? n * m
  then ret {| arr_dtype := float32; arr_swapped := false;
              arr_shape := [n; m]; arr_flat := flat |}
  else raise ValueError.

(** [[l[0], ..., l[5]]] *)
Definition first_six (l : list Q) : M (list Q) :=
  match l with
  | b0 :: b1 :: b2 :: b3 :: b4 :: b5 :: _ => ret [b0; b1; b2; b3; b4; b5]
  | _ => raise IndexError
  end.

Definition py_when {A} (o : option A) (f : A -> M unit) : M unit :=
  match o with
  | Some a => f a
  | None => ret tt
  end.

(** Modelled from the spec: [mat4_identity] and [mat4_scale] of
    [spimagine.transform_matrices], which is not part of the sources at
    hand: the identity transform and the diagonal scale matrix. *)
Definition mat4_scale (x y z : Q) : matrix :=
  [ [x; 0; 0; 0]; [0; y; 0; 0]; [0; 0; z; 0]; [0; 0; 0; 1] ]%Q.

Definition mat4_identity : matrix := mat4_scale 1 1 1.

(** ** The methods of [VolumeRenderer] *)

Section Methods.
Context {B : Backend}.

(** [reset_buffer], lines 140-141. *)
Definition reset_buffer : M unit :=
  r <- get ;;
  modify (with_buf (fresh_buffer (height r * width r))).

(** [resize], lines 135-137. *)
Definition resize (size : nat * nat) : M unit :=
  modify (with_size (fst size) (snd size)) ;;
  reset_buffer.

(** [set_dtype], lines 120-132.  [hasattr(self, "dtype")] is the test
    that the field is not [None]. *)
Definition set_dtype (d : option np_dtype) : M unit :=
  r <- get ;;
  if match dtype r, d with
     | Some cur, Some x => dtype_eqb x cur
     | _, _ => false
     end
  then ret tt
  else
    d' <- match d with
          | Some x => ret x
          | None => match dtypes r with
                    | x :: _ => ret x
                    | [] => raise IndexError
                    end
          end ;;
    (if dtype_in d' (dtypes r)
     then modify (with_dtype (Some d'))
     else raise (NotImplementedError (dtypes r) d')) ;;
    reset_buffer.

(** The stride [Nstep] that [_get_downsampled_data_slices] computes. *)
Definition Nstep_of (data : ndarray) (r : renderer) : nat :=
  ceil_sqrt_ratio (nbytes data) (memMax r).

(** [_get_downsampled_data_slices], lines 143-154.  The division
    [1.*data.nbytes/self.memMax] fails for a zero [memMax]. *)
Definition _get_downsampled_data_slices (data : ndarray)
  : M (option (list slice)) :=
  r <- get ;;
  if memMax r =? 0 then raise ZeroDivisionError
  else
    let Nstep := Nstep_of data r in
    let slices :=
      map (fun d => {| sl_start := 0; sl_stop := d; sl_step := Nstep |})
          (arr_shape data) in
    if 1 <? Nstep then ret (Some slices) else ret None.

(** [set_max_val] and [set_gamma], lines 156-160. *)
Definition set_max_val (v : Q) : M unit := modify (with_maxVal v).

Definition set_gamma (v : Q) : M unit := modify (with_gamma v).

(** [set_shape], lines 182-191: both branches create the image; on the
    CPU device with channel order [Rx]. *)
Definition set_shape (dataShape : list nat) : M unit :=
  r <- get ;;
  dt <- getattr dtype ;;
  modify (with_dataImg
            (Some {| img_shape := dataShape;
                     img_channel := dt;
                     img_order_Rx := negb (isGPU r);
                     img_data := None |})).

(** [self.dev.writeImage(img, a)] *)
Definition writeImage (img : cl_image) (a : ndarray) : cl_image :=
  {| img_shape := img_shape img;
     img_channel := img_channel img;
     img_order_Rx := img_order_Rx img;
     img_data := Some a |}.

(** [update_data], lines 193-207.  [copyData] only decides whether
    [_data] aliases the caller's array; the stored value is the same
    either way. *)
Definition update_data (data : ndarray) (copyData : bool) : M unit :=
  sl <- getattr dataSlices ;;
  a0 <- match sl with
        | Some s => py_getitem data s
        | None => ret (if copyData then data else data)
        end ;;
  modify (with_data (Some a0)) ;;
  a <- getattr _data ;;
  dt <- getattr dtype ;;
  (if has_dtype a dt then ret tt
   else modify (with_data (Some (astype a dt)))) ;;
  img <- getattr dataImg ;;
  a' <- getattr _data ;;
  modify (with_dataImg (Some (writeImage img a'))).

(** [set_data], lines 163-180.  The first test is on [data.dtype], the
    second on [data.dtype.type]. *)
Definition set_data (data : ndarray) (autoConvert copyData : bool) : M unit :=
  r <- get ;;
  if negb autoConvert && negb (dtype_supported data (dtypes r))
  then raise (NotImplementedError (dtypes r) (arr_dtype data))
  else
    d <- (if dtype_in (arr_dtype data) (dtypes r)
          then set_dtype (Some (arr_dtype data)) ;; ret data
          else dt <- getattr dtype ;; ret (astype data dt)) ;;
    sl <- _get_downsampled_data_slices d ;;
    modify (with_dataSlices (Some sl)) ;;
    shaped <- match sl with
              | Some s => py_getitem d s
              | None => ret d
              end ;;
    set_shape (rev (arr_shape shaped)) ;;
    update_data d copyData.

(** The setters of lines 209-219. *)
Definition set_box_boundaries (boxBounds : list Q) : M unit :=
  modify (with_boxBounds boxBounds).

Definition set_units (stackUnits : list Q) : M unit :=
  modify (with_stackUnits stackUnits).

Definition set_projection (projection : matrix) : M unit :=
  modify (with_projection projection).

(** [self.modelView = 1.*modelView] *)
Definition set_modelView (modelView : matrix) : M unit :=
  modify (with_modelView (Some (map (map (Qmult 1)) modelView))).

(** [_stack_scale_mat], lines 227-234.  When the greatest extent
    [maxDim] is zero numpy's quotients are not finite; the rational
    quotients here say nothing about that case. *)
Definition _stack_scale_mat : M matrix :=
  img <- getattr dataImg ;;
  r <- get ;;
  match img_shape img with
  | [Nx; Ny; Nz] =>
      match stackUnits r with
      | [dx; dy; dz] =>
          let maxDim :=
            py_max (dx * Qnat Nx)%Q [(dy * Qnat Ny)%Q; (dz * Qnat Nz)%Q] in
          ret (mat4_scale (1 * dx * Qnat Nx / maxDim)
                          (1 * dy * Qnat Ny / maxDim)
                          (1 * dz * Qnat Nz / maxDim))
      | _ => raise ValueError
      end
  | _ => raise ValueError
  end.

(** The keyword arguments of [render]; [None] is an argument left at
    its default. *)
Record overrides : Type := {
  ov_data : option ndarray;
  ov_stackUnits : option (list Q);
  ov_maxVal : option Q;
  ov_gamma : option Q;
  ov_modelView : option matrix;
  ov_projection : option matrix;
  ov_boxBounds : option (list Q)
}.

Definition no_overrides : overrides :=
  {| ov_data := None; ov_stackUnits := None; ov_maxVal := None;
     ov_gamma := None; ov_modelView := None; ov_projection := None;
     ov_boxBounds := None |}.

(** [self.dev.readBuffer(self.buf, dtype=np.float32)
         .reshape(self.width, self.height)] *)
Definition read_output : M ndarray :=
  r <- get ;;
  reshape2 (buf r) (width r) (height r).

(** The arguments [render] hands to [runKernel], read off the object. *)
Definition kernel_args_of (r : renderer) (box : list Q) (img : cl_image)
    (dt : np_dtype) : kernel_args :=
  {| ka_width := width r;
     ka_height := height r;
     ka_box := map (np_cast float32) box;
     ka_maxVal := np_cast float32 (maxVal r);
     ka_gamma := np_cast float32 (gamma r);
     ka_invP := invPBuf r;
     ka_invM := invMBuf r;
     ka_img := img;
     ka_isUint16 := dtype_eqb dt uint16 |}.

(** The part of [render] after the two guards, lines 268-297: derive and
    upload the matrices, run the kernel, read the result back. *)
Definition dispatch : M ndarray :=
  mScale <- _stack_scale_mat ;;
  mv <- getattr modelView ;;
  m <- np_dot mv mScale ;;
  invM <- py_inv m ;;
  modify (with_invMBuf (map (np_cast float32) (concat invM))) ;;
  r <- get ;;
  invP <- py_inv (projection r) ;;
  modify (with_invPBuf (map (np_cast float32) (concat invP))) ;;
  r <- get ;;
  box <- first_six (boxBounds r) ;;
  img <- getattr dataImg ;;
  dt <- getattr dtype ;;
  let args := kernel_args_of r box img dt in
  modify (fun r => with_kernel_log (args :: kernel_log r)
                     (with_buf (max_project args) r)) ;;
  read_output.

(** The first part of [render], lines 242-258: every argument that is not
    [None] goes to its setter.  There is no such step for [boxBounds]. *)
Definition apply_overrides (ov : overrides) : M unit :=
  py_when (ov_data ov) (fun d => set_data d true false) ;;
  py_when (ov_maxVal ov) set_max_val ;;
  py_when (ov_gamma ov) set_gamma ;;
  py_when (ov_stackUnits ov) set_units ;;
  py_when (ov_modelView ov) set_modelView ;;
  py_when (ov_projection ov) set_projection.

(** [render], lines 237-297.  The second guard is
    [not modelView and not hasattr(self, 'modelView')]: it takes the truth
    value of the [modelView] argument. *)
Definition render (ov : overrides) : M ndarray :=
  apply_overrides ov ;;
  r <- get ;;
  match dataImg r with
  | None => read_output
  | Some _ =>
      falsy <- match ov_modelView ov with
               | None => ret true
               | Some m => t <- array_truth m ;; ret (negb t)
               end ;;
      if falsy && match modelView r with Some _ => false | None => true end
      then read_output
      else dispatch
  end.

(** The object before [__init__] has run: no attribute exists yet; the
    fields that are not options hold placeholders that [__init__]
    overwrites before anything reads them. *)
Definition blank : renderer :=
  {| isGPU := false; dtypes := []; memMax := 0; width := 0; height := 0;
     buf := []; invMBuf := []; invPBuf := []; dtype := None;
     gamma := 0%Q; maxVal := 0%Q; boxBounds := []; stackUnits := [];
     modelView := None; projection := []; dataSlices := None;
     dataImg := None; _data := None; kernel_log := [] |}.

(** [__init__(size)], lines 67-118.  [gpu] and [cpu] are what [OCLDevice] finds: the
    device's [MAX_MEM_ALLOC_SIZE] when there is such a device.  With no
    device at all [self.dev] is never assigned and reading it fails. *)
Definition VolumeRenderer_init (gpu cpu : option nat)
    (size : option (nat * nat)) : M unit :=
  match gpu with
  | Some m => modify (with_device true [float32; uint16] m)
  | None =>
      match cpu with
      | Some m => modify (with_device false [float32] m)
      | None => raise AttributeError
      end
  end ;;
  modify (with_invMBuf (fresh_buffer 16)) ;;
  modify (with_invPBuf (fresh_buffer 16)) ;;
  match size with
  | Some sz => resize sz
  | None => resize (200, 200)
  end ;;
  set_dtype None ;;
  set_gamma 1 ;;
  set_max_val 0 ;;
  set_box_boundaries [-1; 1; -1; 1; -1; 1]%Q ;;
  set_units [1; 1; 1]%Q ;;
  set_modelView mat4_identity ;;
  set_projection mat4_identity.

End Methods.

(** ** A software backend

    A stand-in for the OpenCL device that inverts diagonal matrices only,
    converts elements without changing them, zero-fills fresh buffers and
    whose kernel paints every pixel with the display maximum.  It serves
    to run the renderer on concrete inputs. *)

Fixpoint diag_row_ok (i : nat) (row : list Q) : bool :=
  match row with
  | [] => true
  | x :: t =>
      match i with
      | 0 => negb (Qeq_bool x 0) && forallb (fun y => Qeq_bool y 0) t
      | S i' => Qeq_bool x 0 && diag_row_ok i' t
      end
  end.

Fixpoint diag_ok (i : nat) (m : matrix) : bool :=
  match m with
  | [] => true
  | row :: t => diag_row_ok i row && diag_ok (S i) t
  end.

Definition diag_inv (m : matrix) : option matrix :=
  if is_square m && diag_ok 0 m then Some (map (map Qinv) m) else None.

Definition flat_kernel (a : kernel_args) : list Q :=
  repeat (ka_maxVal a) (ka_width a * ka_height a).

#[export] Instance soft_backend : Backend :=
  {| np_cast := fun _ x => x;
     linalg_inv := diag_inv;
     linalg_inv_square :=
       ltac:(intros m i; unfold diag_inv;
             destruct (is_square m); [reflexivity | discriminate]);
     fresh_buffer := repeat 0%Q;
     fresh_buffer_length := repeat_length 0%Q;
     max_project := flat_kernel;
     max_project_length :=
       fun a => repeat_length (ka_maxVal a) (ka_width a * ka_height a) |}.

(** A float32 volume of the given shape filled with ones, and the same
    for any element type. *)
Definition ones_of (d : np_dtype) (sh : list nat) : ndarray :=
  {| arr_dtype := d; arr_swapped := false; arr_shape := sh;
     arr_flat := repeat 1%Q (prod_shape sh) |}.

(** ** Calls and their sequences *)

(** A call of a method of the renderer by its owner. *)
Inductive call : Type :=
  | Resize (size : nat * nat)
  | ResetBuffer
  | SetDtype (d : option np_dtype)
  | SetData (data : ndarray) (autoConvert copyData : bool)
  | SetShape (dataShape : list nat)
  | UpdateData (data : ndarray) (copyData : bool)
  | SetMaxVal (v : Q)
  | SetGamma (v : Q)
  | SetBoxBoundaries (boxBounds : list Q)
  | SetUnits (stackUnits : list Q)
  | SetProjection (m : matrix)
  | SetModelView (m : matrix)
  | Render (ov : overrides).

Definition is_resize (c : call) : bool :=
  match c with
  | Resize _ => true
  | _ => false
  end.

(** The object after a call, whether the call returned or raised (the
    caller may catch the exception and go on). *)
Definition exec {B : Backend} (c : call) (r : renderer) : renderer :=
  match c with
  | Resize size => snd (resize size r)
  | ResetBuffer => snd (reset_buffer r)
  | SetDtype d => snd (set_dtype d r)
  | SetData data ac cp => snd (set_data data ac cp r)
  | SetShape sh => snd (set_shape sh r)
  | UpdateData data cp => snd (update_data data cp r)
  | SetMaxVal v => snd (set_max_val v r)
  | SetGamma v => snd (set_gamma v r)
  | SetBoxBoundaries b => snd (set_box_boundaries b r)
  | SetUnits u => snd (set_units u r)
  | SetProjection m => snd (set_projection m r)
  | SetModelView m => snd (set_modelView m r)
  | Render ov => snd (render ov r)
  end.

Definition run {B : Backend} (cs : list call) (r : renderer) : renderer :=
  fold_left (fun r c => exec c r) cs r.

(** ** Notions the properties are stated with *)

(** [s] is the ceiling of the square root of the ratio [p/q]: the least
    natural number whose square is at least [p/q]. *)
Definition is_ceil_sqrt_ratio (p q s : nat) : Prop :=
  p <= s * s * q /\ forall t, p <= t * t * q -> s <= t.

(** The slices the renderer builds: the whole of each axis, every [s]-th
    index. *)
Definition strided (s : nat) (sh : list nat) : list slice :=
  map (fun d => {| sl_start := 0; sl_stop := d; sl_step := s |}) sh.

(** The array [set_data] goes on with (its [_data]): the argument itself
    when its element type is supported, its conversion to the stored
    element type [dt] otherwise. *)
Definition converted {B : Backend} (data : ndarray) (dt : np_dtype)
    (r : renderer) : ndarray :=
  if dtype_in (arr_dtype data) (dtypes r) then data else astype data dt.

(** The array [update_data] keeps of [a] when the stored element type
    is [dt]: [a] itself when it has that dtype, its conversion
    otherwise. *)
Definition stored_as {B : Backend} (a : ndarray) (dt : np_dtype) : ndarray :=
  if has_dtype a dt then a else astype a dt.

(** The array that ends up on the device when [set_data] goes on with
    [d] and the device allocates at most [limit] bytes at once: [d],
    strided when it is too big, in native byte order. *)
Definition uploaded {B : Backend} (d : ndarray) (limit : nat) : ndarray :=
  stored_as
    (if 1 <? ceil_sqrt_ratio (nbytes d) limit
     then getitem d (strided (ceil_sqrt_ratio (nbytes d) limit) (arr_shape d))
     else d)
    (arr_dtype d).

(** Stride [t] brings the volume [d] within the allocation limit. *)
Definition fits (d : ndarray) (limit t : nat) : Prop :=
  nbytes (getitem d (strided t (arr_shape d))) <= limit.

(** [s] is the least positive stride that brings [d] within the limit. *)
Definition minimal_fitting_stride (d : ndarray) (limit s : nat) : Prop :=
  fits d limit s /\ forall t, 0 < t -> fits d limit t -> s <= t.

(** The output size is [(w, h)] and the output buffer has that many
    elements. *)
Definition sized (w h : nat) (r : renderer) : Prop :=
  width r = w /\ height r = h /\ length (buf r) = w * h.

(** The stored element type is one of the supported ones. *)
Definition dtype_ok (r : renderer) : Prop :=
  exists d, dtype r = Some d /\ In d (dtypes r).

(** The array on the device has the stored element type, in native byte
    order. *)
Definition upload_matches (r : renderer) : Prop :=
  exists d a img,
    dtype r = Some d /\ _data r = Some a /\ arr_dtype a = d /\
    arr_swapped a = false /\
    dataImg r = Some img /\ img_data img = Some a.

(** The stored value after an optional override. *)
Definition or_old {A} (o : option A) (old : A) : A :=
  match o with
  | Some v => v
  | None => old
  end.

(** The object with the display and camera arguments of [render]
    stored. *)
Definition camera_overrides (ov : overrides) (r : renderer) : renderer :=
  with_projection (or_old (ov_projection ov) (projection r))
    (with_modelView
       (match ov_modelView ov with
        | Some m => Some (map (map (Qmult 1)) m)
        | None => modelView r
        end)
       (with_stackUnits (or_old (ov_stackUnits ov) (stackUnits r))
          (with_gamma (or_old (ov_gamma ov) (gamma r))
             (with_maxVal (or_old (ov_maxVal ov) (maxVal r)) r)))).

(** The stored display and camera state. *)
Definition camera_of (r : renderer) :=
  (modelView r, projection r, stackUnits r, boxBounds r, gamma r, maxVal r).

(** What [render] reads of the object besides the device buffers. *)
Definition inputs (r : renderer) :=
  (width r, height r, dtype r, gamma r, maxVal r, boxBounds r,
   stackUnits r, modelView r, projection r, dataImg r).

(** The two matrix buffers [invM] and [invP] hold what the stored camera
    state of [r] gives: the inverse of the stored model-view matrix
    times the scale matrix of the stored units and image shape, and the
    inverse of the stored projection, each flattened and cast to
    float32. *)
Definition camera_matrices {B : Backend} (invM invP : list Q) (r : renderer)
  : Prop :=
  exists mScale mv m iM iP,
    _stack_scale_mat r = (Val mScale, r) /\
    modelView r = Some mv /\
    np_dot mv mScale r = (Val m, r) /\
    py_inv m r = (Val iM, r) /\
    invM = map (np_cast float32) (concat iM) /\
    py_inv (projection r) r = (Val iP, r) /\
    invP = map (np_cast float32) (concat iP).

(** The kernel arguments [a] are those the object [r] stores: the
    parameter set is up to date.  The size, the box, the display
    values, the image and the type flag are the stored ones, and the two
    matrix buffers are the device's and hold the matrices of the stored
    camera state. *)
Definition args_match {B : Backend} (a : kernel_args) (r : renderer) : Prop :=
  ka_width a = width r /\ ka_height a = height r /\
  ka_box a = map (np_cast float32) (firstn 6 (boxBounds r)) /\
  ka_maxVal a = np_cast float32 (maxVal r) /\
  ka_gamma a = np_cast float32 (gamma r) /\
  ka_invP a = invPBuf r /\ ka_invM a = invMBuf r /\
  dataImg r = Some (ka_img a) /\
  (exists dt, dtype r = Some dt /\ ka_isUint16 a = dtype_eqb dt uint16) /\
  camera_matrices (ka_invM a) (ka_invP a) r.

(** The greatest extent [maxDim] that [_stack_scale_mat] divides by,
    for an image of three axes and a spacing of three entries. *)
Definition max_extent (r : renderer) : option Q :=
  match dataImg r with
  | Some img =>
      match img_shape img, stackUnits r with
      | [Nx; Ny; Nz], [dx; dy; dz] =>
          Some (py_max (dx * Qnat Nx)%Q [(dy * Qnat Ny)%Q; (dz * Qnat Nz)%Q])
      | _, _ => None
      end
  | None => None
  end.

(** The greatest extent is not zero: the quotients of [_stack_scale_mat]
    are finite numbers. *)
Definition scale_finite (r : renderer) : Prop :=
  exists m, max_extent r = Some m /\ ~ (m == 0)%Q.

(** Two matrices agree entry by entry, as rational numbers. *)
Definition mat_eqv (a b : matrix) : Prop := Forall2 (Forall2 Qeq) a b.

(** [m] is the greatest of the numbers [l]. *)
Definition is_max (m : Q) (l : list Q) : Prop :=
  In m l /\ forall x, In x l -> (x <= m)%Q.

(** [preserves P c]: running [c] keeps [P] true of the object, whether
    [c] returns or raises. *)
Definition preserves {A} (P : renderer -> Prop) (c : M A) : Prop :=
  forall r, P r -> P (snd (c r)).

(** [returns c Q]: whenever [c] returns a value, [Q] holds of the value
    and the object it leaves. *)
Definition returns {A} (c : M A) (Q : A -> renderer -> Prop) : Prop :=
  forall r a r', c r = (Val a, r') -> Q a r'.

(** ** Concrete objects

    Renderers on the software backend, with a device that allocates at
    most 1000 bytes at once. *)
Definition soft_renderer (size : option (nat * nat)) : renderer :=
  snd (VolumeRenderer_init (Some 1000) None size blank).

Definition soft_renderer_with (data : ndarray) (size : option (nat * nat))
  : renderer :=
  snd (set_data data true false (soft_renderer size)).

Definition only_maxVal (v : Q) : overrides :=
  {| ov_data := None; ov_stackUnits := None; ov_maxVal := Some v;
     ov_gamma := None; ov_modelView := None; ov_projection := None;
     ov_boxBounds := None |}.

Definition only_stackUnits (u : list Q) : overrides :=
  {| ov_data := None; ov_stackUnits := Some u; ov_maxVal := None;
     ov_gamma := None; ov_modelView := None; ov_projection := None;
     ov_boxBounds := None |}.

Definition only_modelView (m : matrix) : overrides :=
  {| ov_data := None; ov_stackUnits := None; ov_maxVal := None;
     ov_gamma := None; ov_modelView := Some m; ov_projection := None;
     ov_boxBounds := None |}.

Definition only_boxBounds (b : list Q) : overrides :=
  {| ov_data := None; ov_stackUnits := None; ov_maxVal := None;
     ov_gamma := None; ov_modelView := None; ov_projection := None;
     ov_boxBounds := Some b |}.

(** ** Further notions *)

(** Volume data is on the device and a model-view matrix is stored:
    [render] gets past both of its guards. *)
Definition ready (r : renderer) : Prop :=
  dataImg r <> None /\ modelView r <> None.

(** An array holds as many elements as its shape says. *)
Definition well_formed (a : ndarray) : Prop :=
  length (arr_flat a) = prod_shape (arr_shape a).

(** * Properties *)

Unset Implicit Arguments.

(** ** Arithmetic of the downsampling stride *)

Lemma ceil_div_ge (p q : nat) : 0 < q -> p <= ceil_div p q * q.
Proof.
  intros Hq. unfold ceil_div.
  pose proof (Nat.div_mod_eq (p + q - 1) q) as E.
  pose proof (Nat.mod_upper_bound (p + q - 1) q ltac:(lia)) as U.
  nia.
Qed.

Lemma ceil_div_least (p q c : nat) : 0 < q -> p <= c * q -> ceil_div p q <= c.
Proof.
  intros Hq H. unfold ceil_div.
  apply Nat.lt_succ_r. apply Nat.Div0.div_lt_upper_bound. nia.
Qed.

Lemma ceil_div_exact (k q : nat) : 0 < q -> ceil_div (k * q) q = k.
Proof.
  intros Hq. apply Nat.le_antisymm.
  - apply ceil_div_least; lia.
  - pose proof (ceil_div_ge (k * q) q Hq). nia.
Qed.

Lemma ceil_div_1 (n : nat) : ceil_div n 1 = n.
Proof. unfold ceil_div. rewrite Nat.div_1_r. lia. Qed.

Lemma ceil_sqrt_ge (n : nat) : n <= ceil_sqrt n * ceil_sqrt n.
Proof.
  unfold ceil_sqrt. pose proof (Nat.sqrt_spec n (Nat.le_0_l n)) as S.
  cbv zeta. destruct (Nat.eqb_spec (Nat.sqrt n * Nat.sqrt n) n); lia.
Qed.

Lemma ceil_sqrt_least (n t : nat) : n <= t * t -> ceil_sqrt n <= t.
Proof.
  intros H. unfold ceil_sqrt. pose proof (Nat.sqrt_spec n (Nat.le_0_l n)) as S.
  cbv zeta. destruct (Nat.eqb_spec (Nat.sqrt n * Nat.sqrt n) n); nia.
Qed.

Lemma ceil_sqrt_ratio_spec (p q : nat) :
  0 < q -> is_ceil_sqrt_ratio p q (ceil_sqrt_ratio p q).
Proof.
  intros Hq. unfold ceil_sqrt_ratio. split.
  - pose proof (ceil_div_ge p q Hq). pose proof (ceil_sqrt_ge (ceil_div p q)). nia.
  - intros t Ht. apply ceil_sqrt_least. apply ceil_div_least; assumption.
Qed.

Lemma is_ceil_sqrt_ratio_unique (p q s s' : nat) :
  is_ceil_sqrt_ratio p q s -> is_ceil_sqrt_ratio p q s' -> s = s'.
Proof.
  intros [H1 L1] [H2 L2]. apply Nat.le_antisymm; auto.
Qed.

Lemma ceil_sqrt_ratio_small (p q : nat) :
  0 < p -> p <= q -> ceil_sqrt_ratio p q = 1.
Proof.
  intros Hp Hq.
  apply (is_ceil_sqrt_ratio_unique p q _ _); [apply ceil_sqrt_ratio_spec; lia |].
  split; [lia |]. intros t Ht. destruct t; [simpl in Ht |]; lia.
Qed.

Lemma ceil_sqrt_ratio_le_1 (p q : nat) :
  0 < q -> p <= q -> ceil_sqrt_ratio p q <= 1.
Proof.
  intros Hq Hp. destruct (ceil_sqrt_ratio_spec p q Hq) as [_ L]. apply L. lia.
Qed.

Lemma ceil_sqrt_ratio_multiple (k q : nat) :
  0 < q -> ceil_sqrt_ratio (k * q) q = ceil_sqrt k.
Proof.
  intros Hq. unfold ceil_sqrt_ratio. rewrite ceil_div_exact; auto.
Qed.

Lemma ceil_sqrt_ratio_big (p q : nat) :
  0 < q -> q < p -> 2 <= ceil_sqrt_ratio p q.
Proof.
  intros Hq Hp. destruct (ceil_sqrt_ratio_spec p q Hq) as [G _].
  destruct (ceil_sqrt_ratio p q) as [|[|s]]; simpl in G; lia.
Qed.

(** ** Reasoning about method bodies *)

Section Rules.
Variable P : renderer -> Prop.

Lemma preserves_ret A (a : A) : preserves P (ret a).
Proof. intros r H. exact H. Qed.

Lemma preserves_raise A (e : exn) : preserves P (@raise A e).
Proof. intros r H. exact H. Qed.

Lemma preserves_get : preserves P get.
Proof. intros r H. exact H. Qed.

Lemma preserves_getattr A (f : renderer -> option A) : preserves P (getattr f).
Proof. intros r H. unfold getattr. destruct (f r); exact H. Qed.

Lemma preserves_modify (f : renderer -> renderer) :
  (forall r, P r -> P (f r)) -> preserves P (modify f).
Proof. intros Hf r H. apply Hf, H. Qed.

Lemma preserves_bind A C (c : M A) (k : A -> M C) :
  preserves P c -> (forall a, preserves P (k a)) -> preserves P (bind c k).
Proof.
  intros Hc Hk r H. unfold bind. specialize (Hc r H).
  destruct (c r) as [[a | e] r']; simpl in Hc.
  - apply Hk, Hc.
  - exact Hc.
Qed.

Lemma preserves_bind_get C (k : renderer -> M C) :
  (forall r0, P r0 -> preserves P (k r0)) -> preserves P (bind get k).
Proof. intros Hk r H. unfold bind, get. apply Hk; exact H. Qed.

Lemma preserves_when A (o : option A) (f : A -> M unit) :
  (forall a, preserves P (f a)) -> preserves P (py_when o f).
Proof. intros Hf. destruct o; simpl; [apply Hf | apply preserves_ret]. Qed.

End Rules.

Lemma returns_bind A C (c : M A) (k : A -> M C) (Q : C -> renderer -> Prop) :
  (forall a, returns (k a) Q) -> returns (bind c k) Q.
Proof.
  intros Hk r b r' E. unfold bind in E.
  destruct (c r) as [[a | e] r1]; [| discriminate].
  exact (Hk a r1 b r' E).
Qed.

Lemma returns_raise A (e : exn) (Q : A -> renderer -> Prop) :
  returns (raise e) Q.
Proof. intros r a r' E. discriminate. Qed.

(** Reduces a goal [returns c Q] to the last step of [c]. *)
Ltac returns_last :=
  repeat match goal with
         | |- returns (bind _ _) _ => apply returns_bind; intros
         | |- returns (let _ := _ in _) _ => cbv zeta
         end.

(** Breaks a goal [preserves P c] down along the structure of [c]; [tac]
    proves that the single updates keep [P]. *)
Ltac pres_step tac :=
  first
    [ solve [ tac ]
    | match goal with
      | |- preserves _ (ret _) => apply preserves_ret
      | |- preserves _ (raise _) => apply preserves_raise
      | |- preserves _ get => apply preserves_get
      | |- preserves _ (getattr _) => apply preserves_getattr
      | |- preserves _ (modify _) => apply preserves_modify
      | |- preserves _ (py_when _ _) => apply preserves_when; intros
      | |- preserves _ (py_getitem _ _) => unfold py_getitem
      | |- preserves _ (py_inv _) => unfold py_inv
      | |- preserves _ (bind get _) => apply preserves_bind_get; intros
      | |- preserves _ (bind _ _) => apply preserves_bind; [| intros ]
      | |- preserves _ (let _ := _ in _) => cbv zeta
      | |- preserves _ (if ?b then _ else _) => destruct b
      | |- preserves _ (match ?x with _ => _ end) => destruct x
      end ].

Ltac pres tac := repeat (pres_step tac).

(** ** The output buffer matches the output size *)

Section Sized.
Context {B : Backend}.
Variables w h : nat.

Lemma reset_buffer_sized r :
  width r = w -> height r = h -> sized w h (snd (reset_buffer r)).
Proof.
  intros Hw Hh. unfold sized. cbn. rewrite fresh_buffer_length. lia.
Qed.

Lemma preserves_reset_buffer : preserves (sized w h) reset_buffer.
Proof. intros r [Hw [Hh _]]. apply reset_buffer_sized; assumption. Qed.

Lemma resize_sized r : sized w h (snd (resize (w, h) r)).
Proof. unfold sized. cbn. rewrite fresh_buffer_length. lia. Qed.

(** Updates of attributes other than the size and the buffer. *)
Ltac sized_upd :=
  match goal with
  | |- forall r, sized _ _ r -> sized _ _ _ =>
      let r := fresh "r" in
      let H := fresh "H" in
      intros r H; exact H
  end.

Ltac sized_known := first [ sized_upd | apply preserves_reset_buffer ].

Lemma preserves_set_dtype d : preserves (sized w h) (set_dtype d).
Proof. unfold set_dtype. pres sized_known. Qed.

Lemma preserves_set_shape sh : preserves (sized w h) (set_shape sh).
Proof. unfold set_shape. pres sized_known. Qed.

Lemma preserves_update_data d cp : preserves (sized w h) (update_data d cp).
Proof. unfold update_data. pres sized_known. Qed.

Lemma preserves_slices d :
  preserves (sized w h) (_get_downsampled_data_slices d).
Proof. unfold _get_downsampled_data_slices. pres sized_known. Qed.

Ltac sized_methods :=
  first [ sized_known
        | apply preserves_set_dtype
        | apply preserves_set_shape
        | apply preserves_update_data
        | apply preserves_slices ].

Lemma preserves_set_data d ac cp : preserves (sized w h) (set_data d ac cp).
Proof. unfold set_data. pres sized_methods. Qed.

Lemma preserves_stack_scale_mat : preserves (sized w h) _stack_scale_mat.
Proof. unfold _stack_scale_mat. pres sized_known. Qed.

Lemma preserves_read_output : preserves (sized w h) read_output.
Proof. unfold read_output, reshape2. pres sized_known. Qed.

Lemma preserves_dispatch : preserves (sized w h) dispatch.
Proof.
  unfold dispatch, np_dot, py_inv, first_six.
  pres ltac:(first [ sized_known
                   | apply preserves_stack_scale_mat
                   | apply preserves_read_output ]).
  intros r [Hw [Hh _]]. unfold sized. cbn.
  rewrite max_project_length. cbn.
  match goal with H : sized w h _ |- _ => destruct H as [Hw' [Hh' _]] end.
  rewrite Hw', Hh'. auto.
Qed.

Lemma preserves_render ov : preserves (sized w h) (render ov).
Proof.
  unfold render, apply_overrides, set_max_val, set_gamma, set_units,
    set_modelView,
    set_projection, array_truth.
  pres ltac:(first [ sized_known
                   | apply preserves_set_data
                   | apply preserves_dispatch
                   | apply preserves_read_output ]).
Qed.

End Sized.

(** ** Sequences of calls *)

Section Calls.
Context {B : Backend}.

Lemma exec_sized w h c r :
  is_resize c = false -> sized w h r -> sized w h (exec c r).
Proof.
  intros Hc H. destruct c; simpl in Hc; try discriminate; simpl.
  - apply preserves_reset_buffer, H.
  - apply preserves_set_dtype, H.
  - apply preserves_set_data, H.
  - apply preserves_set_shape, H.
  - apply preserves_update_data, H.
  - exact H.
  - exact H.
  - exact H.
  - exact H.
  - exact H.
  - exact H.
  - apply preserves_render, H.
Qed.

Lemma run_sized w h cs r :
  (forall c, In c cs -> is_resize c = false) ->
  sized w h r -> sized w h (run cs r).
Proof.
  revert r. induction cs as [|c cs IH]; intros r Hcs H; simpl.
  - exact H.
  - apply IH.
    + intros c' Hc'. apply Hcs. right. exact Hc'.
    + apply exec_sized; [apply Hcs; left; reflexivity | exact H].
Qed.

(** What [render] returns, when it returns, is the output buffer in the
    shape [(width, height)]. *)
Lemma read_output_returns :
  returns read_output
    (fun img r => arr_shape img = [width r; height r] /\ arr_flat img = buf r).
Proof.
  intros r a r' E. unfold read_output, bind, get, reshape2 in E.
  destruct (length (buf r) =? width r * height r); [| discriminate].
  inversion E; subst. split; reflexivity.
Qed.

Lemma dispatch_returns :
  returns dispatch
    (fun img r => arr_shape img = [width r; height r] /\ arr_flat img = buf r).
Proof.
  unfold dispatch.
  returns_last. apply read_output_returns.
Qed.

Lemma render_returns ov :
  returns (render ov)
    (fun img r => arr_shape img = [width r; height r] /\ arr_flat img = buf r).
Proof.
  unfold render.
  returns_last.
  match goal with |- returns (match ?x with _ => _ end) _ => destruct x end.
  - returns_last.
    match goal with |- returns (if ?b then _ else _) _ => destruct b end;
      [apply read_output_returns | apply dispatch_returns].
  - apply read_output_returns.
Qed.

(** Without volume data, and with the buffer matching the size, a
    [render()] without arguments returns the buffer and touches nothing. *)
Lemma render_no_data r :
  dataImg r = None -> length (buf r) = width r * height r ->
  render no_overrides r =
    (Val {| arr_dtype := float32;
            arr_swapped := false;
            arr_shape := [width r; height r];
            arr_flat := buf r |}, r).
Proof.
  intros Hd Hl.
  unfold render, apply_overrides, no_overrides, bind, get, read_output,
    reshape2.
  cbn. rewrite Hd. unfold bind, get.
  rewrite Hl, Nat.eqb_refl. reflexivity.
Qed.

End Calls.

(** ** Output size: [resize] and [render] *)

Section OutputSize.
Context {B : Backend}.

Lemma init_returns gpu cpu size r :
  VolumeRenderer_init gpu cpu size blank = (Val tt, r) ->
  dataImg r = None /\ kernel_log r = [] /\
  length (buf r) = width r * height r /\
  (width r, height r) = or_old size (200, 200) /\
  (exists d, dtype r = Some d /\ In d (dtypes r)).
Proof.
  intros E. unfold VolumeRenderer_init in E.
  replace (match size with
           | Some sz => resize sz
           | None => resize (200, 200)
           end) with (resize (or_old size (200, 200))) in E
    by (destruct size; reflexivity).
  destruct (or_old size (200, 200)) as [w h].
  destruct gpu as [g|]; [| destruct cpu as [c|]; [| discriminate]];
    cbn in E; inversion E; subst; clear E; cbn;
    rewrite fresh_buffer_length;
    (split; [reflexivity |]); (split; [reflexivity |]); (split; [lia |]);
    (split; [reflexivity |]);
    eexists; (split; [reflexivity | simpl; auto]).
Qed.

(** C2, as amended.  After [resize((w, h))] the output buffer is a fresh
    one of [h*w] elements, and whatever calls other than [resize] follow,
    a later [render] that returns, returns the buffer as an array of shape
    [(w, h)] (not [(h, w)]); a [render()] without volume data does
    return. *)
Theorem resize_then_render_shape (r : renderer) (w h : nat) (cs : list call) :
  (forall c, In c cs -> is_resize c = false) ->
  resize (w, h) r
    = (Val tt, with_buf (fresh_buffer (h * w)) (with_size w h r)) /\
  (forall ov img r',
      render ov (run cs (snd (resize (w, h) r))) = (Val img, r') ->
      arr_shape img = [w; h] /\ length (arr_flat img) = w * h) /\
  (dataImg (run cs (snd (resize (w, h) r))) = None ->
   exists img,
     fst (render no_overrides (run cs (snd (resize (w, h) r)))) = Val img /\
     arr_shape img = [w; h]).
Proof.
  intros Hcs.
  assert (S : sized w h (run cs (snd (resize (w, h) r)))).
  { apply run_sized; [exact Hcs | apply resize_sized]. }
  split; [reflexivity |]. split.
  - intros ov img r' E.
    pose proof (preserves_render w h ov _ S) as S'. rewrite E in S'. simpl in S'.
    destruct (render_returns ov _ _ _ E) as [Hs Hf].
    destruct S' as [Hw [Hh Hl]].
    rewrite Hs, Hf, Hw, Hh, Hl. split; reflexivity.
  - intros Hd. destruct S as [Hw [Hh Hl]].
    rewrite render_no_data; [| exact Hd | rewrite Hw, Hh; exact Hl].
    eexists. split; [reflexivity |]. unfold arr_shape.
    rewrite Hw, Hh. reflexivity.
Qed.

(** C3, as amended.  On a freshly constructed renderer [render()]
    returns the output buffer as an array of shape [(width, height)] (not
    [(height, width)]) and leaves the whole object as it was: no kernel
    dispatch, the camera state untouched. *)
Theorem fresh_render_no_data gpu cpu size (r : renderer) :
  VolumeRenderer_init gpu cpu size blank = (Val tt, r) ->
  render no_overrides r
    = (Val {| arr_dtype := float32;
              arr_swapped := false;
              arr_shape := [width r; height r];
              arr_flat := buf r |}, r) /\
  kernel_log r = [] /\
  (width r, height r) = or_old size (200, 200).
Proof.
  intros E. destruct (init_returns _ _ _ _ E) as [Hd [Hk [Hl [Hs _]]]].
  split; [apply render_no_data; assumption |]. split; assumption.
Qed.

End OutputSize.

Lemma resize_then_render_shape_witness :
  (forall c, In c [SetGamma 2; Render no_overrides] -> is_resize c = false) /\
  exists img,
    fst (render no_overrides
           (run [SetGamma 2; Render no_overrides]
                (snd (resize (3, 2) (soft_renderer (Some (4, 4))))))) = Val img /\
    arr_shape img = [3; 2].
Proof.
  assert (H : forall c, In c [SetGamma 2; Render no_overrides] ->
                        is_resize c = false).
  { intros c [<- | [<- | []]]; reflexivity. }
  split; [exact H |].
  apply (proj2 (proj2 (@resize_then_render_shape soft_backend
                         (soft_renderer (Some (4, 4))) 3 2 _ H))).
  vm_compute. reflexivity.
Defined.

(** C2 as stated fails: after [resize((3, 2))] the image [render()]
    returns has shape [(3, 2)], which is [(w, h)] and not [(h, w)]. *)
Lemma resize_render_shape_is_wh :
  exists img r',
    render no_overrides (snd (resize (3, 2) (soft_renderer (Some (4, 4)))))
      = (Val img, r') /\
    arr_shape img = [3; 2] /\ arr_shape img <> [2; 3].
Proof.
  eexists. eexists. split; [vm_compute; reflexivity |].
  split; [reflexivity | discriminate].
Qed.

Lemma fresh_render_no_data_witness :
  VolumeRenderer_init (Some 1000) None (Some (3, 2)) blank
    = (Val tt, soft_renderer (Some (3, 2))) /\
  fst (render no_overrides (soft_renderer (Some (3, 2))))
    = Val {| arr_dtype := float32;
             arr_swapped := false;
             arr_shape := [3; 2];
             arr_flat := repeat 0%Q 6 |}.
Proof.
  assert (E : VolumeRenderer_init (Some 1000) None (Some (3, 2)) blank
              = (Val tt, soft_renderer (Some (3, 2))))
    by (vm_compute; reflexivity).
  split; [exact E |].
  rewrite (proj1 (@fresh_render_no_data soft_backend _ _ _ _ E)).
  vm_compute. reflexivity.
Defined.

(** C3 as stated fails: a fresh renderer of width 3 and height 2 returns
    an image of shape [(3, 2)], not [(height, width)]. *)
Lemma fresh_render_shape_is_wh :
  exists img,
    fst (render no_overrides (soft_renderer (Some (3, 2)))) = Val img /\
    arr_shape img = [width (soft_renderer (Some (3, 2)));
                     height (soft_renderer (Some (3, 2)))] /\
    arr_shape img <> [height (soft_renderer (Some (3, 2)));
                      width (soft_renderer (Some (3, 2)))].
Proof.
  eexists. split; [vm_compute; reflexivity |].
  split; [vm_compute; reflexivity | vm_compute; discriminate].
Qed.

(** ** What [set_data] does *)

Lemma dtype_eqb_eq (a b : np_dtype) : dtype_eqb a b = true <-> a = b.
Proof. destruct a, b; simpl; split; intros H; try reflexivity; discriminate. Qed.

Lemma dtype_eqb_refl (a : np_dtype) : dtype_eqb a a = true.
Proof. apply dtype_eqb_eq. reflexivity. Qed.

Lemma dtype_in_In (d : np_dtype) (l : list np_dtype) :
  dtype_in d l = true <-> In d l.
Proof.
  unfold dtype_in. rewrite existsb_exists. split.
  - intros [x [Hx E]]. apply dtype_eqb_eq in E. subst. assumption.
  - intros H. exists d. split; [assumption | apply dtype_eqb_refl].
Qed.

Lemma slice_shape_strided (s : nat) (sh : list nat) :
  slice_shape sh (strided s sh) = map (fun d => ceil_div d s) sh.
Proof.
  induction sh as [|d sh IH]; simpl; [reflexivity |].
  rewrite IH. unfold slice_len. simpl.
  rewrite Nat.min_id, Nat.sub_0_r. reflexivity.
Qed.

Lemma dtype_supported_in (a : ndarray) (l : list np_dtype) :
  dtype_supported a l = dtype_in (arr_dtype a) l && negb (arr_swapped a).
Proof.
  unfold dtype_supported, dtype_in, has_dtype.
  induction l as [|t l IH]; simpl; [reflexivity |].
  rewrite IH. destruct (dtype_eqb (arr_dtype a) t), (arr_swapped a),
    (existsb (dtype_eqb (arr_dtype a)) l); reflexivity.
Qed.

Lemma strided_steps (s : nat) (sh : list nat) :
  0 < s -> existsb (fun x => sl_step x =? 0) (strided s sh) = false.
Proof.
  intros Hs. induction sh as [|d sh IH]; simpl; [reflexivity |].
  rewrite IH. destruct (Nat.eqb_spec s 0); [lia | reflexivity].
Qed.

Lemma py_getitem_strided (d : ndarray) (s : nat) (sh : list nat) :
  0 < s -> length sh = length (arr_shape d) ->
  py_getitem d (strided s sh) = ret (getitem d (strided s sh)).
Proof.
  intros Hs H. unfold py_getitem.
  rewrite (strided_steps s sh Hs). unfold strided.
  rewrite length_map, H, Nat.ltb_irrefl. reflexivity.
Qed.

Section SetData.
Context {B : Backend}.

Lemma stored_as_shape (a : ndarray) (dt : np_dtype) :
  arr_shape (stored_as a dt) = arr_shape a.
Proof. unfold stored_as. destruct (has_dtype a dt); reflexivity. Qed.

Lemma stored_as_length (a : ndarray) (dt : np_dtype) :
  length (arr_flat (stored_as a dt)) = length (arr_flat a).
Proof.
  unfold stored_as. destruct (has_dtype a dt); [reflexivity |].
  cbn. apply length_map.
Qed.

Lemma stored_as_dtype (a : ndarray) (dt : np_dtype) :
  arr_dtype (stored_as a dt) = dt.
Proof.
  unfold stored_as, has_dtype.
  destruct (dtype_eqb (arr_dtype a) dt) eqn:E; [| reflexivity].
  apply dtype_eqb_eq in E. destruct (negb (arr_swapped a)); [exact E |].
  reflexivity.
Qed.

Lemma stored_as_native (a : ndarray) (dt : np_dtype) :
  arr_swapped (stored_as a dt) = false.
Proof.
  unfold stored_as, has_dtype.
  destruct (dtype_eqb (arr_dtype a) dt); [| reflexivity].
  destruct (arr_swapped a) eqn:E; [reflexivity | exact E].
Qed.

Lemma stored_as_has_dtype (a : ndarray) (dt : np_dtype) :
  has_dtype (stored_as a dt) dt = true.
Proof.
  unfold has_dtype at 1.
  rewrite stored_as_dtype, stored_as_native, dtype_eqb_refl. reflexivity.
Qed.

Lemma uploaded_shape (d : ndarray) (limit : nat) :
  arr_shape (uploaded d limit)
  = if 1 <? ceil_sqrt_ratio (nbytes d) limit
    then map (fun n => ceil_div n (ceil_sqrt_ratio (nbytes d) limit))
             (arr_shape d)
    else arr_shape d.
Proof.
  unfold uploaded. rewrite stored_as_shape.
  destruct (1 <? _); [| reflexivity].
  unfold getitem, arr_shape at 1. apply slice_shape_strided.
Qed.

Lemma uploaded_dtype (d : ndarray) (limit : nat) :
  arr_dtype (uploaded d limit) = arr_dtype d.
Proof. unfold uploaded. apply stored_as_dtype. Qed.

Lemma uploaded_native (d : ndarray) (limit : nat) :
  arr_swapped (uploaded d limit) = false.
Proof. unfold uploaded. apply stored_as_native. Qed.

Lemma set_dtype_supported (r : renderer) (d : np_dtype) :
  dtype_in d (dtypes r) = true ->
  exists r1,
    set_dtype (Some d) r = (Val tt, r1) /\
    dtype r1 = Some d /\ dtypes r1 = dtypes r /\
    memMax r1 = memMax r /\ isGPU r1 = isGPU r.
Proof.
  intros Hin. unfold set_dtype, bind, get.
  destruct (dtype r) as [cur|] eqn:Hc.
  - destruct (dtype_eqb d cur) eqn:He.
    + apply dtype_eqb_eq in He. subst cur.
      exists r. repeat split; auto.
    + cbn. rewrite Hin. cbn. eexists. split; [reflexivity |].
      repeat split.
  - cbn. rewrite Hin. cbn. eexists. split; [reflexivity |].
    repeat split.
Qed.

(** [update_data] once the slices, the element type and the image are
    there. *)
Lemma update_data_run (r : renderer) (d : ndarray) (cp : bool)
    (sl : option (list slice)) (dt : np_dtype) (img : cl_image) :
  dataSlices r = Some sl -> dtype r = Some dt -> dataImg r = Some img ->
  (forall s, sl = Some s ->
     length s <= length (arr_shape d) /\
     existsb (fun x => sl_step x =? 0) s = false) ->
  update_data d cp r
  = (Val tt,
     with_dataImg
       (Some (writeImage img
                (stored_as match sl with
                           | Some s => getitem d s
                           | None => d
                           end dt)))
       (with_data
          (Some (stored_as match sl with
                           | Some s => getitem d s
                           | None => d
                           end dt)) r)).
Proof.
  intros Hs Hdt Hi Hlen.
  unfold update_data, py_getitem, stored_as, bind, getattr, modify, ret.
  rewrite Hs.
  destruct sl as [s|].
  - destruct (Hlen s eq_refl) as [Hl Hz]. rewrite Hz.
    destruct (Nat.ltb_spec (length (arr_shape d)) (length s)) as [Hlt | _];
      [lia |].
    cbn. rewrite Hdt. cbn.
    destruct (has_dtype (getitem d s) dt); cbn; rewrite Hi; reflexivity.
  - destruct cp; cbn; rewrite Hdt; cbn;
      destruct (has_dtype d dt); cbn; rewrite Hi; reflexivity.
Qed.

Lemma slices_run (r : renderer) (d : ndarray) :
  0 < memMax r ->
  _get_downsampled_data_slices d r
  = (Val (if 1 <? Nstep_of d r
          then Some (strided (Nstep_of d r) (arr_shape d))
          else None), r).
Proof.
  intros Hm. unfold _get_downsampled_data_slices, bind, get.
  destruct (Nat.eqb_spec (memMax r) 0) as [E0 | _]; [lia |].
  cbv zeta. fold (strided (Nstep_of d r) (arr_shape d)).
  destruct (1 <? Nstep_of d r); reflexivity.
Qed.

(** The part of [set_data] after the element type is settled. *)
Lemma set_data_tail (r1 : renderer) (d : ndarray) (cp : bool) :
  dtype r1 = Some (arr_dtype d) -> 0 < memMax r1 ->
  exists r',
    (sl <- _get_downsampled_data_slices d ;;
     modify (with_dataSlices (Some sl)) ;;
     shaped <- match sl with
               | Some s => py_getitem d s
               | None => ret d
               end ;;
     set_shape (rev (arr_shape shaped)) ;;
     update_data d cp) r1 = (Val tt, r') /\
    dtype r' = Some (arr_dtype d) /\ dtypes r' = dtypes r1 /\
    dataSlices r' =
      Some (if 1 <? Nstep_of d r1
            then Some (strided (Nstep_of d r1) (arr_shape d))
            else None) /\
    _data r' = Some (uploaded d (memMax r1)) /\
    dataImg r' =
      Some {| img_shape := rev (arr_shape (uploaded d (memMax r1)));
              img_channel := arr_dtype d;
              img_order_Rx := negb (isGPU r1);
              img_data := Some (uploaded d (memMax r1)) |}.
Proof.
  intros Hdt Hm.
  unfold bind at 1. rewrite (slices_run r1 d Hm).
  unfold uploaded. fold (Nstep_of d r1).
  destruct (Nat.ltb_spec 1 (Nstep_of d r1)) as [Hs | Hs].
  - unfold bind at 1. unfold modify at 1. unfold bind at 1.
    rewrite (py_getitem_strided d (Nstep_of d r1) (arr_shape d) ltac:(lia) eq_refl).
    unfold ret at 1. unfold set_shape, bind, get, getattr, modify.
    cbn [dtype with_dataSlices]. rewrite Hdt.
    erewrite update_data_run;
      [ | reflexivity | cbn; exact Hdt | reflexivity
        | intros s0 E; injection E as <-;
          split; [unfold strided; rewrite length_map; apply Nat.le_refl
                 | apply strided_steps; lia] ].
    eexists. split; [reflexivity |]. cbn. rewrite stored_as_shape.
    repeat split; assumption.
  - unfold bind at 1. unfold modify at 1. unfold bind at 1.
    unfold ret at 1. unfold set_shape, bind, get, getattr, modify.
    cbn [dtype with_dataSlices]. rewrite Hdt.
    erewrite update_data_run;
      [ | reflexivity | cbn; exact Hdt | reflexivity
        | intros s0 E; discriminate E ].
    eexists. split; [reflexivity |]. cbn. rewrite stored_as_shape.
    repeat split; assumption.
Qed.

Lemma set_data_run (r : renderer) (data : ndarray) (ac cp : bool)
    (dt : np_dtype) :
  dtype r = Some dt -> 0 < memMax r ->
  ac = true \/ dtype_supported data (dtypes r) = true ->
  exists r',
    set_data data ac cp r = (Val tt, r') /\
    dtype r' = Some (arr_dtype (converted data dt r)) /\
    dtypes r' = dtypes r /\
    dataSlices r' =
      Some (if 1 <? Nstep_of (converted data dt r) r
            then Some (strided (Nstep_of (converted data dt r) r)
                               (arr_shape data))
            else None) /\
    _data r' = Some (uploaded (converted data dt r) (memMax r)) /\
    dataImg r' =
      Some {| img_shape :=
                rev (arr_shape (uploaded (converted data dt r) (memMax r)));
              img_channel := arr_dtype (converted data dt r);
              img_order_Rx := negb (isGPU r);
              img_data := Some (uploaded (converted data dt r) (memMax r)) |}.
Proof.
  intros Hdt Hm Hac.
  assert (Hsh : arr_shape (converted data dt r) = arr_shape data).
  { unfold converted. destruct (dtype_in _ _); reflexivity. }
  rewrite <- Hsh. clear Hsh. unfold converted.
  unfold set_data. unfold bind at 1. unfold get at 1.
  rewrite dtype_supported_in in *.
  destruct (dtype_in (arr_dtype data) (dtypes r)) eqn:Hin.
  - assert (Hg : negb ac && negb (true && negb (arr_swapped data)) = false).
    { destruct ac; [reflexivity |].
      destruct Hac as [Habs | ->]; [discriminate | reflexivity]. }
    rewrite Hg.
    destruct (set_dtype_supported r _ Hin) as [r1 [E1 [D1 [T1 [M1 G1]]]]].
    unfold bind at 1. unfold bind at 1. rewrite E1. unfold ret at 1.
    destruct (set_data_tail r1 data cp D1 ltac:(lia))
      as [r' [E' [D' [T' [S' [U' I']]]]]].
    exists r'. unfold Nstep_of in *. rewrite <- M1, <- G1, <- T1. auto 10.
  - destruct Hac as [-> | Habs]; [| discriminate]. cbn [negb andb].
    unfold bind at 1. unfold bind at 1. unfold getattr at 1. rewrite Hdt.
    unfold ret at 1.
    destruct (set_data_tail r (astype data dt) cp Hdt Hm)
      as [r' [E' [D' [T' [S' [U' I']]]]]].
    exists r'. auto 10.
Qed.

End SetData.

(** ** The downsampling stride *)

Lemma ceil_sqrt_is_ratio_1 (k : nat) : is_ceil_sqrt_ratio k 1 (ceil_sqrt k).
Proof.
  split.
  - pose proof (ceil_sqrt_ge k). lia.
  - intros t Ht. apply ceil_sqrt_least. lia.
Qed.

Lemma map_ceil_div_1 (sh : list nat) : map (fun n => ceil_div n 1) sh = sh.
Proof.
  induction sh as [|n sh IH]; cbn [map]; [reflexivity |].
  rewrite ceil_div_1, IH. reflexivity.
Qed.

Section Stride.
Context {B : Backend}.

Lemma converted_shape data dt r :
  arr_shape (converted data dt r) = arr_shape data.
Proof. unfold converted. destruct (dtype_in _ _); reflexivity. Qed.

(** C1, as amended.  [set_data] goes on with the argument converted to a
    supported element type (the argument itself when the type of its
    elements is supported).  Its stride [s] is the ceiling of the square
    root of that array's byte size over the device's maximal allocation:
    the least [s] with [s*s*maxAlloc >= nbytes].  With [s > 1] the
    slices it stores take every [s]-th index of each axis, the array it
    uploads is that selection, and each axis has [ceil(N_i/s)] entries;
    otherwise it stores no slices and uploads the whole array, of the
    input's shape.  The upload is in native byte order and the device
    image has its shape, reversed.  When the byte size is positive and at
    most the maximal allocation the stride is 1; when it is at most the
    maximal allocation nothing is left out; when it is [k >= 1] times the
    maximal allocation the stride is the ceiling of the square root of
    [k] and each axis of the uploaded array has [ceil(N_i/s)] entries. *)
Theorem set_data_stride (r : renderer) (data : ndarray) (ac cp : bool)
    (dt : np_dtype) :
  dtype r = Some dt -> 0 < memMax r ->
  ac = true \/ dtype_supported data (dtypes r) = true ->
  exists r' u img s,
    set_data data ac cp r = (Val tt, r') /\
    is_ceil_sqrt_ratio (nbytes (converted data dt r)) (memMax r) s /\
    dataSlices r'
      = Some (if 1 <? s then Some (strided s (arr_shape data)) else None) /\
    _data r' = Some u /\
    u = stored_as
          (if 1 <? s
           then getitem (converted data dt r) (strided s (arr_shape data))
           else converted data dt r)
          (arr_dtype (converted data dt r)) /\
    arr_shape u
      = (if 1 <? s
         then map (fun n => ceil_div n s) (arr_shape data)
         else arr_shape data) /\
    dataImg r' = Some img /\
    img_data img = Some u /\ img_shape img = rev (arr_shape u) /\
    (dtype_in (arr_dtype data) (dtypes r) = true ->
     converted data dt r = data) /\
    (0 < nbytes (converted data dt r) <= memMax r -> s = 1) /\
    (nbytes (converted data dt r) <= memMax r ->
     dataSlices r' = Some None /\ arr_shape u = arr_shape data) /\
    (forall k, 1 <= k -> nbytes (converted data dt r) = k * memMax r ->
       is_ceil_sqrt_ratio k 1 s /\
       arr_shape u = map (fun n => ceil_div n s) (arr_shape data)).
Proof.
  intros Hdt Hm Hac.
  destruct (set_data_run r data ac cp dt Hdt Hm Hac)
    as [r' [E [_ [_ [S [U I]]]]]].
  pose proof (uploaded_shape (converted data dt r) (memMax r)) as Hsh.
  rewrite converted_shape in Hsh. fold (Nstep_of (converted data dt r) r) in Hsh.
  exists r', (uploaded (converted data dt r) (memMax r)).
  eexists. exists (Nstep_of (converted data dt r) r).
  split; [exact E |].
  split; [apply ceil_sqrt_ratio_spec; exact Hm |].
  split; [exact S |]. split; [exact U |].
  split; [unfold uploaded; rewrite converted_shape; reflexivity |].
  split; [exact Hsh |].
  split; [exact I |]. split; [reflexivity |]. split; [reflexivity |].
  split; [| split; [| split]].
  - intros Hin. unfold converted. rewrite Hin. reflexivity.
  - intros [Hp Hle]. apply ceil_sqrt_ratio_small; assumption.
  - intros Hle. rewrite S, Hsh.
    pose proof (ceil_sqrt_ratio_le_1 _ _ Hm Hle) as H.
    unfold Nstep_of.
    destruct (Nat.ltb_spec 1 (ceil_sqrt_ratio (nbytes (converted data dt r))
                                              (memMax r))); [lia |].
    split; reflexivity.
  - intros k Hk Hn. split.
    + unfold Nstep_of. rewrite Hn, ceil_sqrt_ratio_multiple by exact Hm.
      apply ceil_sqrt_is_ratio_1.
    + rewrite Hsh. unfold Nstep_of.
      destruct (Nat.ltb_spec 1 (ceil_sqrt_ratio
                                  (nbytes (converted data dt r)) (memMax r)))
        as [H | H]; [reflexivity |].
      assert (E1 : ceil_sqrt_ratio (nbytes (converted data dt r)) (memMax r)
                   = 1).
      { destruct (ceil_sqrt_ratio_spec (nbytes (converted data dt r))
                    (memMax r) Hm) as [G _].
        destruct (ceil_sqrt_ratio (nbytes (converted data dt r)) (memMax r))
          as [|[|s]]; [simpl in G; nia | reflexivity | lia]. }
      rewrite E1, map_ceil_div_1. reflexivity.
Qed.

(** C8, as amended.  For a volume larger than the maximal allocation the
    stride is the least [s] with [s*s*maxAlloc >= nbytes], which is at
    least 2, and the slices take every [s]-th index of each axis. *)
Theorem stride_is_ceil_sqrt (r : renderer) (d : ndarray) :
  0 < memMax r -> memMax r < nbytes d ->
  _get_downsampled_data_slices d r
    = (Val (Some (strided (Nstep_of d r) (arr_shape d))), r) /\
  is_ceil_sqrt_ratio (nbytes d) (memMax r) (Nstep_of d r) /\
  2 <= Nstep_of d r.
Proof.
  intros Hm Hn.
  pose proof (ceil_sqrt_ratio_big _ _ Hm Hn) as H2.
  split; [| split].
  - unfold _get_downsampled_data_slices, bind, get.
    destruct (Nat.eqb_spec (memMax r) 0); [lia |].
    unfold Nstep_of.
    destruct (Nat.ltb_spec 1 (ceil_sqrt_ratio (nbytes d) (memMax r)));
      [reflexivity | lia].
  - apply ceil_sqrt_ratio_spec. exact Hm.
  - exact H2.
Qed.

End Stride.

Lemma set_data_stride_witness :
  exists r' u,
    set_data (ones_of float32 [4; 4; 4]) true false
             (snd (VolumeRenderer_init (Some 64) None (Some (2, 2)) blank))
      = (Val tt, r') /\
    dataSlices r' = Some (Some (strided 2 [4; 4; 4])) /\
    _data r' = Some u /\ arr_shape u = [2; 2; 2].
Proof.
  destruct (@set_data_stride soft_backend
              (snd (VolumeRenderer_init (Some 64) None (Some (2, 2)) blank))
              (ones_of float32 [4; 4; 4]) true false float32
              eq_refl ltac:(vm_compute; lia) (or_introl eq_refl))
    as [r' [u [img [s [E [Hs [S [U [_ [Sh _]]]]]]]]]].
  assert (Es : s = 2).
  { apply (is_ceil_sqrt_ratio_unique _ _ _ _ Hs). vm_compute. split; [lia |].
    intros [|[|t]] Ht; lia. }
  subst s.
  exists r', u. split; [exact E |]. split; [exact S |].
  split; [exact U | exact Sh].
Defined.

(** C1 as stated fails: a uint8 volume of 1000 bytes on a device that
    allocates 1000 bytes at once is converted to float32, which makes
    4000 bytes, and is uploaded with stride 2 in the shape [(5, 5, 5)]. *)
Lemma uint8_volume_is_downsampled :
  nbytes (ones_of uint8 [10; 10; 10]) <= memMax (soft_renderer (Some (2, 2)))
  /\ fst (set_data (ones_of uint8 [10; 10; 10]) true false
                   (soft_renderer (Some (2, 2)))) = Val tt
  /\ exists u,
       _data (soft_renderer_with (ones_of uint8 [10; 10; 10]) (Some (2, 2)))
         = Some u /\
       arr_shape u = [5; 5; 5] /\
       arr_shape u <> arr_shape (ones_of uint8 [10; 10; 10]).
Proof.
  split; [apply Nat.leb_le; vm_compute; reflexivity |].
  split; [vm_compute; reflexivity |].
  eexists. split; [vm_compute; reflexivity |].
  split; [reflexivity | vm_compute; discriminate].
Qed.

Lemma stride_is_ceil_sqrt_witness :
  Nstep_of (ones_of float32 [20; 20; 20]) (soft_renderer (Some (2, 2))) = 6 /\
  2 <= Nstep_of (ones_of float32 [20; 20; 20]) (soft_renderer (Some (2, 2))).
Proof.
  split; [vm_compute; reflexivity |].
  apply (stride_is_ceil_sqrt (soft_renderer (Some (2, 2)))
           (ones_of float32 [20; 20; 20])).
  - vm_compute. lia.
  - apply Nat.ltb_lt. vm_compute. reflexivity.
Defined.

(** C8 as stated fails: for a float32 volume of 20x20x20 (32000 bytes)
    and a maximal allocation of 1000 bytes the stride is 6, while stride
    4 already leaves 5x5x5 float32 = 500 bytes. *)
Lemma stride_not_minimal :
  memMax (soft_renderer (Some (2, 2)))
    < nbytes (ones_of float32 [20; 20; 20]) /\
  Nstep_of (ones_of float32 [20; 20; 20]) (soft_renderer (Some (2, 2))) = 6 /\
  fits (ones_of float32 [20; 20; 20])
       (memMax (soft_renderer (Some (2, 2)))) 4 /\
  ~ minimal_fitting_stride
      (ones_of float32 [20; 20; 20])
      (memMax (soft_renderer (Some (2, 2))))
      (Nstep_of (ones_of float32 [20; 20; 20]) (soft_renderer (Some (2, 2)))).
Proof.
  assert (F : fits (ones_of float32 [20; 20; 20])
                   (memMax (soft_renderer (Some (2, 2)))) 4).
  { unfold fits. apply Nat.leb_le. vm_compute. reflexivity. }
  assert (N : Nstep_of (ones_of float32 [20; 20; 20])
                       (soft_renderer (Some (2, 2))) = 6)
    by (vm_compute; reflexivity).
  split; [apply Nat.ltb_lt; vm_compute; reflexivity |].
  split; [exact N |]. split; [exact F |].
  intros [_ L]. specialize (L 4 ltac:(lia) F). rewrite N in L. lia.
Qed.

(** ** Element types: rejection, conversion and the stored [dtype] *)

Section Dtypes.
Context {B : Backend}.

(** What runs in [set_data] once the element type is settled raises no
    type-mismatch error. *)
Lemma set_data_tail_no_mismatch (r1 : renderer) (d : ndarray) (cp : bool)
    (req : list np_dtype) (g : np_dtype) :
  fst ((sl <- _get_downsampled_data_slices d ;;
        modify (with_dataSlices (Some sl)) ;;
        shaped <- match sl with
                  | Some s => py_getitem d s
                  | None => ret d
                  end ;;
        set_shape (rev (arr_shape shaped)) ;;
        update_data d cp) r1) <> Raise (NotImplementedError req g).
Proof.
  unfold _get_downsampled_data_slices, set_shape, update_data, py_getitem,
    bind, get, getattr, modify, ret, raise.
  repeat match goal with
         | |- context [match ?x with _ => _ end] =>
             match x with
             | context [match _ with _ => _ end] => fail 1
             | _ => destruct x; cbn
             end
         end;
    discriminate.
Qed.

(** C6.  With [autoConvert] off, an array whose dtype is not among the
    supported ones ([data.dtype in self.dtypes] is false: the type of its
    elements is none of them, or it is one of them in non-native byte
    order) makes [set_data] raise the type-mismatch error, which carries
    the supported types and the given type, and the object stays exactly
    as it was.  With a supported dtype, or with [autoConvert] on,
    [set_data] never raises this error. *)
Theorem set_data_type_mismatch (r : renderer) (data : ndarray) (cp : bool) :
  (dtype_supported data (dtypes r) = false ->
   set_data data false cp r
     = (Raise (NotImplementedError (dtypes r) (arr_dtype data)), r)) /\
  (forall ac req g,
      ac = true \/ dtype_supported data (dtypes r) = true ->
      fst (set_data data ac cp r) <> Raise (NotImplementedError req g)).
Proof.
  split.
  - intros Hin. unfold set_data, bind, get. rewrite Hin. reflexivity.
  - intros ac req g Hac.
    unfold set_data. unfold bind at 1. unfold get at 1.
    rewrite dtype_supported_in in *.
    destruct (dtype_in (arr_dtype data) (dtypes r)) eqn:Hin.
    + assert (Hg : negb ac && negb (true && negb (arr_swapped data)) = false).
      { destruct ac; [reflexivity |].
        destruct Hac as [Habs | ->]; [discriminate | reflexivity]. }
      rewrite Hg.
      destruct (set_dtype_supported r _ Hin) as [r1 [E1 _]].
      unfold bind at 1. unfold bind at 1. rewrite E1. unfold ret at 1.
      apply set_data_tail_no_mismatch.
    + destruct Hac as [-> | Habs]; [| discriminate]. cbn [negb andb].
      unfold bind at 1. unfold bind at 1. unfold getattr at 1.
      destruct (dtype r) as [dt|].
      * unfold ret at 1. apply set_data_tail_no_mismatch.
      * discriminate.
Qed.

Lemma update_data_uploads (data : ndarray) (cp : bool) :
  returns (update_data data cp) (fun _ r' => upload_matches r').
Proof.
  intros r a r' E.
  unfold update_data, bind, getattr in E.
  destruct (dataSlices r) as [sl|] eqn:Hs; [| discriminate].
  assert (Ha : exists a0,
             match sl with
             | Some s => py_getitem data s
             | None => ret (if cp then data else data)
             end r = (Val a0, r)).
  { destruct sl as [s|]; [| eexists; reflexivity].
    unfold py_getitem in *.
    destruct (length (arr_shape data) <? length s); [discriminate |].
    destruct (existsb (fun x => sl_step x =? 0) s);
      [discriminate | eexists; reflexivity]. }
  destruct Ha as [a0 Ha]. rewrite Ha in E.
  unfold modify, ret in E. cbn in E.
  destruct (dtype r) as [dt|] eqn:Hdt; [| discriminate].
  destruct (has_dtype a0 dt) eqn:Hh; cbn in E;
    (destruct (dataImg r) as [img|] eqn:Hi; [| discriminate]);
    inversion E; subst r'; clear E; unfold upload_matches; cbn.
  - unfold has_dtype in Hh. apply andb_prop in Hh as [H1 H2].
    apply dtype_eqb_eq in H1. apply negb_true_iff in H2.
    eexists dt, a0, _. repeat split; try reflexivity; assumption.
  - eexists dt, (astype a0 dt), _.
    repeat split; try reflexivity; assumption.
Qed.

Lemma set_data_uploads (data : ndarray) (ac cp : bool) :
  returns (set_data data ac cp) (fun _ r' => upload_matches r').
Proof.
  unfold set_data. apply returns_bind; intros r0.
  destruct (negb ac && negb (dtype_supported data (dtypes r0)));
    [apply returns_raise |].
  returns_last. apply update_data_uploads.
Qed.

Ltac dtype_upd :=
  idtac;
  match goal with
  | |- forall r, dtype_ok r -> dtype_ok _ =>
      let r := fresh "r" in
      let H := fresh "H" in
      intros r H; exact H
  end.

Lemma preserves_dtype_reset_buffer : preserves dtype_ok reset_buffer.
Proof. unfold reset_buffer. pres dtype_upd. Qed.

Lemma commit_dtype_ok (r : renderer) (d' : np_dtype) :
  dtype_ok r ->
  dtype_ok (snd (((if dtype_in d' (dtypes r)
                   then modify (with_dtype (Some d'))
                   else raise (NotImplementedError (dtypes r) d')) ;;
                  reset_buffer) r)).
Proof.
  intros H. unfold bind.
  destruct (dtype_in d' (dtypes r)) eqn:Hin; cbn; [| exact H].
  exists d'. split; [reflexivity | apply dtype_in_In, Hin].
Qed.

Lemma preserves_dtype_set_dtype d : preserves dtype_ok (set_dtype d).
Proof.
  intros r H. unfold set_dtype. unfold bind at 1. unfold get at 1.
  destruct (match dtype r, d with
            | Some cur, Some x => dtype_eqb x cur
            | _, _ => false
            end); [exact H |].
  destruct d as [x|]; [apply commit_dtype_ok, H |].
  destruct (dtypes r) as [|x l] eqn:Hl; [exact H |].
  cbv beta iota. rewrite <- Hl. apply commit_dtype_ok, H.
Qed.

Ltac dtype_known :=
  first [ dtype_upd
        | apply preserves_dtype_reset_buffer
        | apply preserves_dtype_set_dtype ].

Lemma preserves_dtype_set_shape sh : preserves dtype_ok (set_shape sh).
Proof. unfold set_shape. pres dtype_known. Qed.

Lemma preserves_dtype_update_data d cp : preserves dtype_ok (update_data d cp).
Proof. unfold update_data. pres dtype_known. Qed.

Lemma preserves_dtype_set_data d ac cp :
  preserves dtype_ok (set_data d ac cp).
Proof.
  unfold set_data, _get_downsampled_data_slices.
  pres ltac:(first [ dtype_known
                   | apply preserves_dtype_set_shape
                   | apply preserves_dtype_update_data ]).
Qed.

Lemma preserves_dtype_render ov : preserves dtype_ok (render ov).
Proof.
  unfold render, dispatch, apply_overrides, set_max_val, set_gamma,
    set_units, set_modelView, set_projection, array_truth, read_output,
    reshape2, _stack_scale_mat, np_dot, py_inv, first_six.
  pres ltac:(first [ dtype_known | apply preserves_dtype_set_data ]).
Qed.

Lemma exec_dtype_ok (c : call) (r : renderer) :
  dtype_ok r -> dtype_ok (exec c r).
Proof.
  intros H.
  destruct c; simpl;
    first [ exact H
          | apply preserves_dtype_set_dtype, H
          | apply preserves_dtype_set_data, H
          | apply preserves_dtype_set_shape, H
          | apply preserves_dtype_update_data, H
          | apply preserves_dtype_render, H ].
Qed.

(** C10, as amended.  The stored element type is a supported one after
    construction and after every call of any method, whether the call
    returns or raises; and after every [set_data] (and [update_data])
    that returns, the array uploaded to the device image has the stored
    element type.  (A [set_dtype] alone uploads nothing: the array on
    the device keeps the type it had.) *)
Theorem dtype_invariant :
  (forall gpu cpu size r,
      VolumeRenderer_init gpu cpu size blank = (Val tt, r) -> dtype_ok r) /\
  (forall c r, dtype_ok r -> dtype_ok (exec c r)) /\
  (forall data ac cp r r',
      set_data data ac cp r = (Val tt, r') -> upload_matches r') /\
  (forall data cp r r',
      update_data data cp r = (Val tt, r') -> upload_matches r').
Proof.
  split; [| split; [| split]].
  - intros gpu cpu size r E.
    destruct (init_returns _ _ _ _ E) as [_ [_ [_ [_ H]]]]. exact H.
  - exact exec_dtype_ok.
  - intros data ac cp r r' E. exact (set_data_uploads data ac cp r tt r' E).
  - intros data cp r r' E. exact (update_data_uploads data cp r tt r' E).
Qed.

End Dtypes.

Lemma set_data_type_mismatch_witness :
  dtype_supported (ones_of float64 [2; 2; 2])
                  (dtypes (soft_renderer (Some (2, 2)))) = false /\
  set_data (ones_of float64 [2; 2; 2]) false false (soft_renderer (Some (2, 2)))
    = (Raise (NotImplementedError [float32; uint16] float64),
       soft_renderer (Some (2, 2))) /\
  set_data {| arr_dtype := float32; arr_swapped := true;
              arr_shape := [1; 1; 2]; arr_flat := [1%Q; 1%Q] |}
           false false (soft_renderer (Some (2, 2)))
    = (Raise (NotImplementedError [float32; uint16] float32),
       soft_renderer (Some (2, 2))) /\
  fst (set_data (ones_of float64 [2; 2; 2]) true false
                (soft_renderer (Some (2, 2))))
    <> Raise (NotImplementedError [float32; uint16] float64).
Proof.
  assert (H : dtype_supported (ones_of float64 [2; 2; 2])
                              (dtypes (soft_renderer (Some (2, 2)))) = false)
    by (vm_compute; reflexivity).
  split; [exact H |]. split; [| split].
  - exact (proj1 (@set_data_type_mismatch soft_backend
                    (soft_renderer (Some (2, 2)))
                    (ones_of float64 [2; 2; 2]) false) H).
  - apply (proj1 (@set_data_type_mismatch soft_backend
                    (soft_renderer (Some (2, 2)))
                    {| arr_dtype := float32; arr_swapped := true;
                       arr_shape := [1; 1; 2]; arr_flat := [1%Q; 1%Q] |}
                    false)).
    vm_compute. reflexivity.
  - exact (proj2 (@set_data_type_mismatch soft_backend
                    (soft_renderer (Some (2, 2)))
                    (ones_of float64 [2; 2; 2]) false)
                 true _ _ (or_introl eq_refl)).
Defined.

Lemma dtype_invariant_witness :
  dtype_ok (soft_renderer (Some (2, 2))) /\
  dtype_ok (exec (SetDtype (Some uint16)) (soft_renderer (Some (2, 2)))) /\
  upload_matches (soft_renderer_with (ones_of uint8 [2; 2; 2]) (Some (2, 2))).
Proof.
  assert (H : dtype_ok (soft_renderer (Some (2, 2)))).
  { apply (proj1 (@dtype_invariant soft_backend)
                 (Some 1000) None (Some (2, 2))).
    vm_compute. reflexivity. }
  split; [exact H |]. split.
  - apply (proj1 (proj2 (@dtype_invariant soft_backend))). exact H.
  - apply (proj1 (proj2 (proj2 (@dtype_invariant soft_backend)))
             (ones_of uint8 [2; 2; 2]) true false (soft_renderer (Some (2, 2)))).
    vm_compute. reflexivity.
Defined.

(** C10 as stated fails for [set_dtype]: after [set_data] of a float32
    volume, [set_dtype(np.uint16)] returns normally and stores uint16,
    while the array on the device is still the float32 one. *)
Lemma set_dtype_leaves_upload :
  fst (set_dtype (Some uint16)
         (soft_renderer_with (ones_of float32 [2; 2; 2]) (Some (2, 2))))
    = Val tt /\
  dtype (exec (SetDtype (Some uint16))
           (soft_renderer_with (ones_of float32 [2; 2; 2]) (Some (2, 2))))
    = Some uint16 /\
  ~ upload_matches
      (exec (SetDtype (Some uint16))
         (soft_renderer_with (ones_of float32 [2; 2; 2]) (Some (2, 2)))).
Proof.
  split; [vm_compute; reflexivity |]. split; [vm_compute; reflexivity |].
  intros [d [a [img [Hd [Ha [Hda _]]]]]].
  vm_compute in Hd, Ha.
  injection Hd as <-. injection Ha as <-.
  discriminate Hda.
Qed.

(** ** The stack-scale matrix *)

Lemma py_max_is_max (x : Q) (rest : list Q) : is_max (py_max x rest) (x :: rest).
Proof.
  revert x. induction rest as [|y rest IH]; intros x.
  - split; [left; reflexivity |].
    intros z [<- | []]. apply Qle_refl.
  - unfold py_max. cbn [fold_left].
    fold (py_max (if Qle_bool y x then x else y) rest).
    destruct (IH (if Qle_bool y x then x else y)) as [Hin Hle].
    destruct (Qle_bool y x) eqn:E.
    + apply Qle_bool_iff in E. split.
      * destruct Hin as [<- | Hin]; [left; reflexivity | right; right; exact Hin].
      * intros z [<- | [<- | Hz]].
        -- apply Hle. left. reflexivity.
        -- apply Qle_trans with x; [exact E | apply Hle; left; reflexivity].
        -- apply Hle. right. exact Hz.
    + assert (L : (x <= y)%Q).
      { apply Qlt_le_weak, Qnot_le_lt. intros C.
        apply Qle_bool_iff in C. congruence. }
      split.
      * destruct Hin as [<- | Hin]; [right; left; reflexivity
                                    | right; right; exact Hin].
      * intros z [<- | [<- | Hz]].
        -- apply Qle_trans with y; [exact L | apply Hle; left; reflexivity].
        -- apply Hle. left. reflexivity.
        -- apply Hle. right. exact Hz.
Qed.

Lemma Qnat_nonzero (n : nat) : 0 < n -> ~ (Qnat n == 0)%Q.
Proof.
  intros Hn E. unfold Qnat, Qeq in E. simpl in E. lia.
Qed.

Lemma unit_scale (d m : Q) (n : nat) :
  0 < n -> (d == 1)%Q -> (m == Qnat n)%Q -> (1 * d * Qnat n / m == 1)%Q.
Proof.
  intros Hn Hd Hm. rewrite Hd, Hm. field. apply Qnat_nonzero, Hn.
Qed.

(** C5.  For a device image of shape [(Nx, Ny, Nz)] and spacing
    [(dx, dy, dz)] the stack-scale matrix is the diagonal scale matrix
    whose coefficients are [spacing_i * N_i / maxDim], where [maxDim] is
    the greatest of the three products [spacing_j * N_j] (the quotients
    are stated for a non-zero [maxDim]); for unit spacing and a cubic
    image, of positive extent, it is the identity. *)
Theorem stack_scale_mat_spec (r : renderer) (img : cl_image)
    (Nx Ny Nz : nat) (dx dy dz : Q) :
  dataImg r = Some img -> img_shape img = [Nx; Ny; Nz] ->
  stackUnits r = [dx; dy; dz] ->
  exists maxDim sx sy sz,
    _stack_scale_mat r = (Val (mat4_scale sx sy sz), r) /\
    is_max maxDim [dx * Qnat Nx; dy * Qnat Ny; dz * Qnat Nz]%Q /\
    (~ (maxDim == 0)%Q ->
     (sx == dx * Qnat Nx / maxDim)%Q /\
     (sy == dy * Qnat Ny / maxDim)%Q /\
     (sz == dz * Qnat Nz / maxDim)%Q) /\
    ((dx == 1)%Q -> (dy == 1)%Q -> (dz == 1)%Q ->
     Nx = Ny -> Ny = Nz -> 0 < Nx ->
     mat_eqv (mat4_scale sx sy sz) mat4_identity).
Proof.
  intros Hi Hs Hu.
  exists (py_max (dx * Qnat Nx)%Q [(dy * Qnat Ny)%Q; (dz * Qnat Nz)%Q]).
  eexists _, _, _. split.
  { unfold _stack_scale_mat, bind, getattr, get. rewrite Hi, Hs, Hu.
    reflexivity. }
  pose proof (py_max_is_max (dx * Qnat Nx)%Q
                [(dy * Qnat Ny)%Q; (dz * Qnat Nz)%Q]) as Hmax.
  split; [exact Hmax |].
  split.
  { intros _. repeat split; rewrite Qmult_1_l; reflexivity. }
  intros Hx Hy Hz E1 E2 Hp. subst Ny Nz.
  assert (Hm : (py_max (dx * Qnat Nx) [dy * Qnat Nx; dz * Qnat Nx]
                == Qnat Nx)%Q).
  { destruct Hmax as [[<- | [<- | [<- | []]]] _].
    - rewrite Hx. apply Qmult_1_l.
    - rewrite Hy. apply Qmult_1_l.
    - rewrite Hz. apply Qmult_1_l. }
  unfold mat_eqv, mat4_identity, mat4_scale.
  repeat constructor; try reflexivity; apply unit_scale; assumption.
Qed.

Lemma stack_scale_mat_spec_witness :
  exists sx sy sz,
    _stack_scale_mat
      (soft_renderer_with (ones_of float32 [3; 3; 3]) (Some (2, 2)))
      = (Val (mat4_scale sx sy sz),
         soft_renderer_with (ones_of float32 [3; 3; 3]) (Some (2, 2))) /\
    mat_eqv (mat4_scale sx sy sz) mat4_identity.
Proof.
  destruct (stack_scale_mat_spec
              (soft_renderer_with (ones_of float32 [3; 3; 3]) (Some (2, 2)))
              {| img_shape := [3; 3; 3]; img_channel := float32;
                 img_order_Rx := false;
                 img_data := Some (ones_of float32 [3; 3; 3]) |}
              3 3 3 1 1 1
              ltac:(vm_compute; reflexivity) eq_refl
              ltac:(vm_compute; reflexivity))
    as [m [sx [sy [sz [E [_ [_ I]]]]]]].
  exists sx, sy, sz. split; [exact E |].
  apply I; try reflexivity. lia.
Defined.

(** ** [render]: determinism, overrides and atomicity *)

Section Render.
Context {B : Backend}.

(** One step of a case analysis that follows a method body: split on a
    scrutinee that is not itself a case analysis. *)
Ltac split_goal :=
  match goal with
  | |- context [match ?x with _ => _ end] =>
      lazymatch x with
      | context [match _ with _ => _ end] => fail
      | _ => destruct x eqn:?
      end
  end.

Ltac unfold_dispatch :=
  unfold dispatch, kernel_args_of, _stack_scale_mat, np_dot, py_inv,
    first_six, read_output, reshape2, bind, get, getattr, modify, ret, raise.

(** The outcome of [dispatch] is a function of what [inputs] lists. *)
Lemma dispatch_inputs (r1 r2 : renderer) :
  inputs r1 = inputs r2 -> fst (dispatch r1) = fst (dispatch r2).
Proof.
  destruct r1, r2. unfold inputs. simpl. intros E.
  inversion E; subst; clear E.
  unfold_dispatch. cbn -[py_max Qmult Qdiv].
  repeat (split_goal; cbn -[py_max Qmult Qdiv]; try reflexivity).
Qed.

Lemma dispatch_keeps_inputs (r : renderer) :
  inputs (snd (dispatch r)) = inputs r.
Proof.
  assert (H : preserves (fun x => inputs x = inputs r) dispatch).
  { unfold dispatch, _stack_scale_mat, np_dot, py_inv, first_six,
      read_output, reshape2.
    pres ltac:(idtac; match goal with
                      | |- forall x, inputs x = _ -> inputs _ = _ =>
                          let x := fresh "x" in
                          let H := fresh "H" in
                          intros x H; exact H
                      end). }
  apply H. reflexivity.
Qed.

Lemma read_output_state (r : renderer) : snd (read_output r) = r.
Proof.
  unfold read_output, reshape2, bind, get.
  destruct (length (buf r) =? width r * height r); reflexivity.
Qed.

Lemma render_no_overrides (r : renderer) :
  render no_overrides r =
    match dataImg r, modelView r with
    | Some _, Some _ => dispatch r
    | _, _ => read_output r
    end.
Proof.
  unfold render, apply_overrides, no_overrides, bind, get. cbn.
  destruct (dataImg r); [| reflexivity].
  destruct (modelView r); reflexivity.
Qed.

(** C9.  A second [render()] right after a first one, with no call in
    between, has the outcome of the first: the same image (or the same
    exception).  The kernel is a function of its arguments, and these
    are functions of the stored state. *)
Theorem render_twice_same_output (r : renderer) :
  fst (render no_overrides (snd (render no_overrides r)))
    = fst (render no_overrides r).
Proof.
  rewrite (render_no_overrides r).
  destruct (dataImg r) as [img|] eqn:Hi.
  - destruct (modelView r) as [mv|] eqn:Hm.
    + rewrite render_no_overrides.
      pose proof (dispatch_keeps_inputs r) as K.
      assert (Hi' : dataImg (snd (dispatch r)) = Some img).
      { unfold inputs in K. inversion K. congruence. }
      assert (Hm' : modelView (snd (dispatch r)) = Some mv).
      { unfold inputs in K. inversion K. congruence. }
      rewrite Hi', Hm'. apply dispatch_inputs. exact K.
    + rewrite read_output_state, render_no_overrides, Hi, Hm. reflexivity.
  - rewrite read_output_state, render_no_overrides, Hi. reflexivity.
Qed.

End Render.

Section Atomicity.
Context {B : Backend}.

Ltac split_hyp E :=
  match type of E with
  | context [match ?x with _ => _ end] =>
      lazymatch x with
      | context [match _ with _ => _ end] => fail
      | _ => destruct x eqn:?
      end
  end.

(** [set_data] touches neither the camera state nor the kernel log. *)
Lemma set_data_keeps_camera (c0 : renderer) d ac cp :
  preserves (fun x => camera_of x = camera_of c0 /\ kernel_log x = kernel_log c0)
            (set_data d ac cp).
Proof.
  unfold set_data, set_dtype, reset_buffer, _get_downsampled_data_slices,
    set_shape, update_data.
  pres ltac:(idtac; match goal with
                    | |- forall x, _ /\ _ -> _ /\ _ =>
                        let x := fresh "x" in
                        let H := fresh "H" in
                        intros x H; exact H
                    end).
Qed.

Lemma apply_overrides_no_data (ov : overrides) (r : renderer) :
  ov_data ov = None ->
  apply_overrides ov r = (Val tt, camera_overrides ov r).
Proof.
  destruct ov as [d u v g m p b]. simpl. intros ->.
  destruct r.
  destruct u, v, g, m, p; reflexivity.
Qed.

Lemma apply_overrides_returns (ov : overrides) (r r1 : renderer) :
  apply_overrides ov r = (Val tt, r1) ->
  camera_of r1 = camera_of (camera_overrides ov r) /\
  kernel_log r1 = kernel_log r.
Proof.
  intros E. unfold apply_overrides in E. unfold bind at 1 in E.
  destruct (py_when (ov_data ov) (fun d => set_data d true false) r)
    as [[[] | e] r0] eqn:E0; [| discriminate].
  assert (K : camera_of r0 = camera_of r /\ kernel_log r0 = kernel_log r).
  { assert (P : preserves
                  (fun x => camera_of x = camera_of r /\
                            kernel_log x = kernel_log r)
                  (py_when (ov_data ov) (fun d => set_data d true false))).
    { apply preserves_when. intros d. apply set_data_keeps_camera. }
    specialize (P r (conj eq_refl eq_refl)). rewrite E0 in P. exact P. }
  destruct K as [Kc Kl]. unfold camera_of in Kc. inversion Kc as [[H1 H2 H3 H4 H5 H6]].
  destruct ov as [d u v g m p b]. cbn in E.
  destruct u, v, g, m, p; cbn in E; inversion E; subst; clear E;
    unfold camera_of, camera_overrides; cbn; rewrite ?H1, ?H2, ?H3, ?H4, ?H5, ?H6;
    (split; [reflexivity | exact Kl]).
Qed.

Lemma read_output_val (r r' : renderer) (img : ndarray) :
  read_output r = (Val img, r') -> r' = r /\ arr_flat img = buf r.
Proof.
  intros E. unfold read_output, reshape2, bind, get in E.
  destruct (length (buf r) =? width r * height r); [| discriminate].
  inversion E. split; reflexivity.
Qed.

(** A [dispatch] that returns has run the kernel once, on the arguments
    that the object stores, and returns what the kernel wrote. *)
Lemma dispatch_val (r r' : renderer) (img : ndarray) :
  dispatch r = (Val img, r') ->
  inputs r' = inputs r /\
  exists args,
    kernel_log r' = args :: kernel_log r /\ args_match args r' /\
    arr_flat img = max_project args.
Proof.
  intros E.
  pose proof (dispatch_keeps_inputs r) as K. rewrite E in K. simpl in K.
  split; [exact K |].
  destruct r.
  unfold dispatch, kernel_args_of, _stack_scale_mat, np_dot, py_inv,
    first_six, read_output, reshape2, bind, get, getattr, modify, ret,
    raise in E.
  cbn -[py_max Qmult Qdiv] in E.
  repeat (split_hyp E; cbn -[py_max Qmult Qdiv] in E; try discriminate).
  inversion E; subst; clear E.
  eexists. split; [reflexivity |]. split; [| reflexivity].
  unfold args_match. cbn.
  repeat split.
  - eexists. split; reflexivity.
  - unfold camera_matrices, _stack_scale_mat, np_dot, py_inv, bind, get,
      getattr, ret, raise.
    cbn -[py_max Qmult Qdiv].
    repeat match goal with
           | H : ?x = _ |- context [?x] => rewrite H
           end.
    eexists _, _, _, _, _.
    split; [reflexivity |]. split; [reflexivity |].
    cbn -[py_max Qmult Qdiv].
    repeat match goal with
           | H : ?x = _ |- context [?x] => rewrite H
           end.
    split; [reflexivity |].
    repeat match goal with
           | H : ?x = _ |- context [?x] => rewrite H
           end.
    repeat split; reflexivity.
Qed.

(** C7, as amended.  A [render] call that returns has stored the display
    and camera overrides it was given, and either it ran the kernel once,
    on the arguments the object now stores, and returns what the kernel
    wrote, or it ran nothing and returns the output buffer as it is.  When
    the volume is missing and no [data] is passed, the call returns the
    prior buffer and changes the object by the overrides only: they are
    stored although nothing is dispatched, and with no override at all
    the object is left exactly as it was. *)
Theorem render_dispatch_or_stale (ov : overrides) (r : renderer) :
  (forall img r',
      render ov r = (Val img, r') ->
      camera_of r' = camera_of (camera_overrides ov r) /\
      ((exists args,
           kernel_log r' = args :: kernel_log r /\ args_match args r' /\
           arr_flat img = max_project args)
       \/
       (kernel_log r' = kernel_log r /\ arr_flat img = buf r' /\
        (ov_data ov = None -> buf r' = buf r)))) /\
  (ov_data ov = None -> dataImg r = None ->
   length (buf r) = width r * height r ->
   render ov r
     = (Val {| arr_dtype := float32;
               arr_swapped := false;
               arr_shape := [width r; height r];
               arr_flat := buf r |}, camera_overrides ov r)) /\
  camera_overrides no_overrides r = r.
Proof.
  split; [| split].
  - intros img r' E. unfold render in E. unfold bind at 1 in E.
    destruct (apply_overrides ov r) as [[[] | e] r1] eqn:E1; [| discriminate].
    destruct (apply_overrides_returns ov r r1 E1) as [Hc Hl].
    assert (Hb : ov_data ov = None -> buf r1 = buf r).
    { intros Hd. rewrite (apply_overrides_no_data ov r Hd) in E1.
      inversion E1. reflexivity. }
    assert (Stale : read_output r1 = (Val img, r') ->
                    camera_of r' = camera_of (camera_overrides ov r) /\
                    kernel_log r' = kernel_log r /\ arr_flat img = buf r' /\
                    (ov_data ov = None -> buf r' = buf r)).
    { intros R. destruct (read_output_val r1 r' img R) as [-> Hf]. auto. }
    assert (Run : dispatch r1 = (Val img, r') ->
                  camera_of r' = camera_of (camera_overrides ov r) /\
                  exists args,
                    kernel_log r' = args :: kernel_log r /\
                    args_match args r' /\ arr_flat img = max_project args).
    { intros D. destruct (dispatch_val r1 r' img D) as [K [args [L [A F]]]].
      split.
      - rewrite <- Hc. unfold inputs in K. inversion K as [[K1 K2 K3 K4 K5 K6 K7 K8 K9 K10]].
        unfold camera_of. congruence.
      - exists args. rewrite L, Hl. auto. }
    unfold bind at 1 in E. unfold get at 1 in E.
    destruct (dataImg r1) as [im|].
    + unfold bind at 1 in E.
      destruct (match ov_modelView ov with
                | Some m => t <- array_truth m ;; ret (negb t)
                | None => ret true
                end r1) as [[falsy | e] r2] eqn:G; [| discriminate].
      assert (r2 = r1) as ->.
      { destruct (ov_modelView ov) as [m|]; [| inversion G; reflexivity].
        unfold array_truth, bind, ret, raise in G.
        destruct (concat m) as [|x [|y l]]; inversion G; reflexivity. }
      destruct (falsy && _).
      * destruct (Stale E) as [S1 S2]. split; [exact S1 | right; exact S2].
      * destruct (Run E) as [S1 S2]. split; [exact S1 | left; exact S2].
    + destruct (Stale E) as [S1 S2]. split; [exact S1 | right; exact S2].
  - intros Hd Hi Hl. unfold render. unfold bind at 1.
    rewrite (apply_overrides_no_data ov r Hd).
    unfold bind, get, read_output, reshape2.
    replace (dataImg (camera_overrides ov r)) with (dataImg r) by reflexivity.
    rewrite Hi. unfold bind, get.
    replace (buf (camera_overrides ov r)) with (buf r) by reflexivity.
    replace (width (camera_overrides ov r)) with (width r) by reflexivity.
    replace (height (camera_overrides ov r)) with (height r) by reflexivity.
    rewrite Hl, Nat.eqb_refl. reflexivity.
  - destruct r. reflexivity.
Qed.

(** With volume data on the device, a [render] call that is given a
    model-view matrix of more than one entry raises: the guard takes the
    truth value of the array. *)
Lemma render_modelView_override_raises (ov : overrides) (r : renderer)
    (m : matrix) (img : cl_image) :
  ov_data ov = None -> ov_modelView ov = Some m -> 2 <= length (concat m) ->
  dataImg r = Some img ->
  fst (render ov r) = Raise ValueError.
Proof.
  intros Hd Hm Hl Hi. unfold render. unfold bind at 1.
  rewrite (apply_overrides_no_data ov r Hd).
  unfold bind at 1. unfold get at 1.
  replace (dataImg (camera_overrides ov r)) with (dataImg r) by reflexivity.
  rewrite Hi, Hm. unfold array_truth, bind, raise.
  destruct (concat m) as [|x [|y l]]; simpl in Hl; try lia. reflexivity.
Qed.

End Atomicity.

Lemma render_dispatch_or_stale_witness :
  render (only_maxVal 5) (soft_renderer (Some (3, 2)))
    = (Val {| arr_dtype := float32;
              arr_swapped := false;
              arr_shape := [3; 2];
              arr_flat := repeat 0%Q 6 |},
       camera_overrides (only_maxVal 5) (soft_renderer (Some (3, 2)))) /\
  exists img args,
    fst (render (only_stackUnits [2; 1; 1]%Q)
           (soft_renderer_with (ones_of float32 [2; 2; 2]) (Some (3, 2))))
      = Val img /\
    stackUnits
      (snd (render (only_stackUnits [2; 1; 1]%Q)
              (soft_renderer_with (ones_of float32 [2; 2; 2]) (Some (3, 2)))))
      = [2; 1; 1]%Q /\
    kernel_log
      (snd (render (only_stackUnits [2; 1; 1]%Q)
              (soft_renderer_with (ones_of float32 [2; 2; 2]) (Some (3, 2)))))
      = [args] /\
    args_match args
      (snd (render (only_stackUnits [2; 1; 1]%Q)
              (soft_renderer_with (ones_of float32 [2; 2; 2]) (Some (3, 2))))).
Proof.
  split.
  - exact (proj1 (proj2 (@render_dispatch_or_stale soft_backend
                           (only_maxVal 5) (soft_renderer (Some (3, 2)))))
                 eq_refl eq_refl eq_refl).
  - set (ov := only_stackUnits [2; 1; 1]%Q).
    set (r0 := soft_renderer_with (ones_of float32 [2; 2; 2]) (Some (3, 2))).
    assert (E : exists img, render ov r0 = (Val img, snd (render ov r0))).
    { eexists. vm_compute. reflexivity. }
    destruct E as [img E].
    assert (K0 : kernel_log r0 = []) by (vm_compute; reflexivity).
    destruct (proj1 (@render_dispatch_or_stale soft_backend ov r0) img _ E)
      as [Hc [[args [L [A F]]] | [L _]]].
    + exists img, args.
      split; [exact (f_equal fst E) |].
      split; [vm_compute; reflexivity |].
      split; [rewrite K0 in L; exact L | exact A].
    + rewrite K0 in L. vm_compute in L. discriminate L.
Defined.

(** C7 as stated fails: on a renderer without volume data,
    [render(maxVal=5)] dispatches nothing and returns the prior buffer,
    yet the stored [maxVal] has changed from 0 to 5. *)
Lemma render_override_without_data_mutates :
  exists img r',
    render (only_maxVal 5) (soft_renderer (Some (3, 2))) = (Val img, r') /\
    kernel_log r' = kernel_log (soft_renderer (Some (3, 2))) /\
    arr_flat img = buf (soft_renderer (Some (3, 2))) /\
    maxVal (soft_renderer (Some (3, 2))) = 0%Q /\
    maxVal r' = 5%Q /\
    r' <> soft_renderer (Some (3, 2)).
Proof.
  eexists. eexists. split; [vm_compute; reflexivity |].
  split; [reflexivity |]. split; [reflexivity |].
  split; [reflexivity |]. split; [reflexivity |].
  intros E. apply (f_equal maxVal) in E. vm_compute in E. discriminate E.
Qed.

(** C4 fails on the code.  With a 2x2x2 float32 volume on the device,
    [render()] returns an image, but [render(modelView=mat4_identity())]
    raises a ValueError at the guard (after the override was stored), and
    [render(boxBounds=...)] returns without storing the box: [render] has
    no setter call for [boxBounds]. *)
Theorem render_override_defects :
  (exists img,
      fst (render no_overrides
             (soft_renderer_with (ones_of float32 [2; 2; 2]) (Some (3, 2))))
        = Val img /\ arr_shape img = [3; 2]) /\
  fst (render (only_modelView mat4_identity)
         (soft_renderer_with (ones_of float32 [2; 2; 2]) (Some (3, 2))))
    = Raise ValueError /\
  (exists img,
      fst (render (only_boxBounds [0; 1; 0; 1; 0; 1]%Q)
             (soft_renderer_with (ones_of float32 [2; 2; 2]) (Some (3, 2))))
        = Val img) /\
  boxBounds
    (snd (render (only_boxBounds [0; 1; 0; 1; 0; 1]%Q)
            (soft_renderer_with (ones_of float32 [2; 2; 2]) (Some (3, 2)))))
    = [-1; 1; -1; 1; -1; 1]%Q.
Proof.
  split; [eexists; split; vm_compute; reflexivity |].
  split; [vm_compute; reflexivity |].
  split; [eexists; vm_compute; reflexivity |].
  vm_compute. reflexivity.
Qed.

(** ** Construction and [set_dtype] *)

Section Construction.
Context {B : Backend}.

(** X1.  [set_dtype], case by case.  Storing the stored type again does
    nothing; another supported type is stored and the output buffer is
    replaced by a fresh one; an unsupported type raises and changes
    nothing; and [set_dtype()] stores the first supported type and
    replaces the buffer even when that type is the stored one. *)
Theorem set_dtype_cases (r : renderer) (cur d : np_dtype) :
  dtype r = Some cur ->
  set_dtype (Some cur) r = (Val tt, r) /\
  (d <> cur -> dtype_in d (dtypes r) = true ->
   set_dtype (Some d) r
     = (Val tt, with_buf (fresh_buffer (height r * width r))
                  (with_dtype (Some d) r))) /\
  (d <> cur -> dtype_in d (dtypes r) = false ->
   set_dtype (Some d) r = (Raise (NotImplementedError (dtypes r) d), r)) /\
  (forall d0 l, dtypes r = d0 :: l ->
   set_dtype None r
     = (Val tt, with_buf (fresh_buffer (height r * width r))
                  (with_dtype (Some d0) r))).
Proof.
  intros Hc.
  assert (Ne : forall x, x <> cur -> dtype_eqb x cur = false).
  { intros x Hx. destruct (dtype_eqb x cur) eqn:E; [| reflexivity].
    apply dtype_eqb_eq in E. contradiction. }
  split; [| split; [| split]].
  - unfold set_dtype, bind, get. rewrite Hc, dtype_eqb_refl. reflexivity.
  - intros Hd Hin. unfold set_dtype, bind, get.
    rewrite Hc, (Ne d Hd). cbn. rewrite Hin. reflexivity.
  - intros Hd Hin. unfold set_dtype, bind, get.
    rewrite Hc, (Ne d Hd). cbn. rewrite Hin. reflexivity.
  - intros d0 l Hl. unfold set_dtype, bind, get. rewrite Hc, Hl. cbn.
    rewrite dtype_eqb_refl. reflexivity.
Qed.

Lemma identity_times_one :
  map (map (Qmult 1)) mat4_identity = mat4_identity.
Proof. reflexivity. Qed.

(** X2.  [__init__].  Without any device the construction fails, with the
    AttributeError of reading [self.dev]; otherwise it succeeds, on the
    GPU when there is one (then float32 and uint16 are supported), else on
    the CPU (float32 only), and the object holds the documented defaults:
    the requested size or 200x200, a buffer of that many elements, type
    float32, gamma 1, maxVal 0, the box [-1,1]^3, unit spacing, identity
    matrices, no volume, nothing dispatched. *)
Theorem init_outcome (gpu cpu : option nat) (size : option (nat * nat)) :
  (gpu = None /\ cpu = None /\
   VolumeRenderer_init gpu cpu size blank = (Raise AttributeError, blank))
  \/
  (exists r,
      VolumeRenderer_init gpu cpu size blank = (Val tt, r) /\
      (isGPU r, dtypes r, Some (memMax r))
        = match gpu with
          | Some m => (true, [float32; uint16], Some m)
          | None => (false, [float32], cpu)
          end /\
      (width r, height r) = or_old size (200, 200) /\
      buf r = fresh_buffer (height r * width r) /\
      invMBuf r = fresh_buffer 16 /\ invPBuf r = fresh_buffer 16 /\
      dtype r = Some float32 /\
      (gamma r, maxVal r) = (1%Q, 0%Q) /\
      boxBounds r = [-1; 1; -1; 1; -1; 1]%Q /\
      stackUnits r = [1; 1; 1]%Q /\
      modelView r = Some mat4_identity /\ projection r = mat4_identity /\
      dataImg r = None /\ _data r = None /\ dataSlices r = None /\
      kernel_log r = []).
Proof.
  unfold VolumeRenderer_init.
  replace (match size with
           | Some sz => resize sz
           | None => resize (200, 200)
           end) with (resize (or_old size (200, 200)))
    by (destruct size; reflexivity).
  destruct (or_old size (200, 200)) as [w h].
  destruct gpu as [g|]; [| destruct cpu as [c|]].
  - right. eexists. split; [reflexivity |]. cbn. repeat split.
  - right. eexists. split; [reflexivity |]. cbn. repeat split.
  - left. repeat split.
Qed.

End Construction.

Lemma set_dtype_cases_witness :
  set_dtype (Some uint16) (soft_renderer (Some (2, 2)))
    = (Val tt, with_buf (fresh_buffer (2 * 2))
                 (with_dtype (Some uint16) (soft_renderer (Some (2, 2))))) /\
  set_dtype (Some float64) (soft_renderer (Some (2, 2)))
    = (Raise (NotImplementedError [float32; uint16] float64),
       soft_renderer (Some (2, 2))).
Proof.
  pose proof (@set_dtype_cases soft_backend (soft_renderer (Some (2, 2)))
                float32 uint16 eq_refl) as [_ [H _]].
  pose proof (@set_dtype_cases soft_backend (soft_renderer (Some (2, 2)))
                float32 float64 eq_refl) as [_ [_ [K _]]].
  split.
  - apply H; [discriminate | reflexivity].
  - apply K; [discriminate | reflexivity].
Defined.

(** ** More on the stack-scale matrix *)

Lemma Qnat_pos (n : nat) : 0 < n -> (0 < Qnat n)%Q.
Proof. intros H. unfold Qnat, Qlt. simpl. lia. Qed.

Lemma scale_coefficient (d n m : Q) :
  (0 < d * n)%Q -> (d * n <= m)%Q ->
  (0 < 1 * d * n / m)%Q /\ (1 * d * n / m <= 1)%Q.
Proof.
  intros Hx Hm.
  assert (Hp : (0 < m)%Q) by (apply Qlt_le_trans with (d * n)%Q; assumption).
  assert (E : (1 * d * n / m == d * n / m)%Q)
    by (rewrite Qmult_1_l; reflexivity).
  rewrite E. split.
  - apply Qlt_shift_div_l; [exact Hp |]. rewrite Qmult_0_l. exact Hx.
  - apply Qle_shift_div_r; [exact Hp |]. rewrite Qmult_1_l. exact Hm.
Qed.

Lemma scale_coefficient_max (d n : Q) :
  (0 < d * n)%Q -> (1 * d * n / (d * n) == 1)%Q.
Proof.
  intros Hx. unfold Qdiv. rewrite Qmult_1_l. apply Qmult_inv_r.
  intros E. rewrite E in Hx. apply (Qlt_irrefl 0). exact Hx.
Qed.

(** X3.  [_stack_scale_mat] normalises.  For positive spacings and a device
    image of positive extents each scale coefficient lies in (0, 1], and
    that of an axis with the greatest physical extent is 1. *)
Theorem stack_scale_normalised (r : renderer) (img : cl_image)
    (Nx Ny Nz : nat) (dx dy dz : Q) :
  dataImg r = Some img -> img_shape img = [Nx; Ny; Nz] ->
  stackUnits r = [dx; dy; dz] ->
  0 < Nx -> 0 < Ny -> 0 < Nz ->
  (0 < dx)%Q -> (0 < dy)%Q -> (0 < dz)%Q ->
  exists sx sy sz,
    _stack_scale_mat r = (Val (mat4_scale sx sy sz), r) /\
    (0 < sx)%Q /\ (sx <= 1)%Q /\
    (0 < sy)%Q /\ (sy <= 1)%Q /\
    (0 < sz)%Q /\ (sz <= 1)%Q /\
    ((sx == 1)%Q \/ (sy == 1)%Q \/ (sz == 1)%Q).
Proof.
  intros Hi Hs Hu Hx Hy Hz Px Py Pz.
  eexists _, _, _. split.
  { unfold _stack_scale_mat, bind, getattr, get. rewrite Hi, Hs, Hu.
    reflexivity. }
  pose proof (py_max_is_max (dx * Qnat Nx)%Q
                [(dy * Qnat Ny)%Q; (dz * Qnat Nz)%Q]) as [Hin Hle].
  assert (Ex : (0 < dx * Qnat Nx)%Q).
  { rewrite <- (Qmult_0_l (Qnat Nx)).
    apply Qmult_lt_compat_r; [apply Qnat_pos, Hx | exact Px]. }
  assert (Ey : (0 < dy * Qnat Ny)%Q).
  { rewrite <- (Qmult_0_l (Qnat Ny)).
    apply Qmult_lt_compat_r; [apply Qnat_pos, Hy | exact Py]. }
  assert (Ez : (0 < dz * Qnat Nz)%Q).
  { rewrite <- (Qmult_0_l (Qnat Nz)).
    apply Qmult_lt_compat_r; [apply Qnat_pos, Hz | exact Pz]. }
  destruct (scale_coefficient dx (Qnat Nx) _ Ex
              (Hle _ (or_introl eq_refl))) as [X1 X2].
  destruct (scale_coefficient dy (Qnat Ny) _ Ey
              (Hle _ (or_intror (or_introl eq_refl)))) as [Y1 Y2].
  destruct (scale_coefficient dz (Qnat Nz) _ Ez
              (Hle _ (or_intror (or_intror (or_introl eq_refl)))))
    as [Z1 Z2].
  repeat (split; [assumption |]).
  destruct Hin as [E | [E | [E | []]]]; rewrite <- E.
  - left. apply scale_coefficient_max, Ex.
  - right. left. apply scale_coefficient_max, Ey.
  - right. right. apply scale_coefficient_max, Ez.
Qed.

Lemma stack_scale_normalised_witness :
  exists sx sy sz,
    _stack_scale_mat
      (soft_renderer_with (ones_of float32 [2; 3; 4]) (Some (2, 2)))
      = (Val (mat4_scale sx sy sz),
         soft_renderer_with (ones_of float32 [2; 3; 4]) (Some (2, 2))) /\
    (sx <= 1)%Q /\ (sy <= 1)%Q /\ (sz <= 1)%Q /\
    ((sx == 1)%Q \/ (sy == 1)%Q \/ (sz == 1)%Q).
Proof.
  destruct (stack_scale_normalised
              (soft_renderer_with (ones_of float32 [2; 3; 4]) (Some (2, 2)))
              {| img_shape := [4; 3; 2]; img_channel := float32;
                 img_order_Rx := false;
                 img_data := Some (ones_of float32 [2; 3; 4]) |}
              4 3 2 1 1 1
              ltac:(vm_compute; reflexivity) eq_refl
              ltac:(vm_compute; reflexivity)
              ltac:(lia) ltac:(lia) ltac:(lia)
              eq_refl eq_refl eq_refl)
    as [sx [sy [sz [E [_ [X [_ [Y [_ [Z D]]]]]]]]]].
  exists sx, sy, sz. auto.
Defined.

(** ** [render] without arguments: where it succeeds and how it fails *)

Section RenderPaths.
Context {B : Backend}.

(** X4.  [_stack_scale_mat] only reads.  Without a device image it fails with
    an AttributeError; the two unpackings need an image of three axes and
    a spacing of three entries and fail with a ValueError otherwise; and
    so does a [render()] on an image that is not three-dimensional, which
    leaves the object as it was. *)
Theorem stack_scale_mat_errors (r : renderer) :
  snd (_stack_scale_mat r) = r /\
  (dataImg r = None -> fst (_stack_scale_mat r) = Raise AttributeError) /\
  (forall img, dataImg r = Some img -> length (img_shape img) <> 3 ->
     fst (_stack_scale_mat r) = Raise ValueError) /\
  (forall img, dataImg r = Some img -> length (stackUnits r) <> 3 ->
     fst (_stack_scale_mat r) = Raise ValueError) /\
  (forall img mv, dataImg r = Some img -> modelView r = Some mv ->
     length (img_shape img) <> 3 \/ length (stackUnits r) <> 3 ->
     render no_overrides r = (Raise ValueError, r)).
Proof.
  assert (S : snd (_stack_scale_mat r) = r).
  { unfold _stack_scale_mat, bind, getattr, get.
    destruct (dataImg r) as [img|]; [| reflexivity]. cbn.
    destruct (img_shape img) as [|a [|b [|c [|e l]]]]; try reflexivity.
    destruct (stackUnits r) as [|x [|y [|z [|t l]]]]; reflexivity. }
  assert (V1 : forall img, dataImg r = Some img ->
                 length (img_shape img) <> 3 ->
                 fst (_stack_scale_mat r) = Raise ValueError).
  { intros img Hi Hl. unfold _stack_scale_mat, bind, getattr, get.
    rewrite Hi. cbn.
    destruct (img_shape img) as [|a [|b [|c [|e l]]]]; try reflexivity.
    simpl in Hl. congruence. }
  assert (V2 : forall img, dataImg r = Some img ->
                 length (stackUnits r) <> 3 ->
                 fst (_stack_scale_mat r) = Raise ValueError).
  { intros img Hi Hl. unfold _stack_scale_mat, bind, getattr, get.
    rewrite Hi. cbn.
    destruct (img_shape img) as [|a [|b [|c [|e l]]]]; try reflexivity.
    destruct (stackUnits r) as [|x [|y [|z [|t l]]]]; try reflexivity.
    simpl in Hl. congruence. }
  split; [exact S |]. split.
  { intros Hi. unfold _stack_scale_mat, bind, getattr. rewrite Hi.
    reflexivity. }
  split; [exact V1 |]. split; [exact V2 |].
  intros img mv Hi Hm Hl.
  rewrite render_no_overrides, Hi, Hm.
  assert (F : fst (_stack_scale_mat r) = Raise ValueError).
  { destruct Hl as [Hl | Hl]; [apply (V1 img) | apply (V2 img)]; assumption. }
  unfold dispatch. unfold bind at 1.
  destruct (_stack_scale_mat r) as [o r'] eqn:E. simpl in S, F. subst.
  reflexivity.
Qed.

(** The run of [dispatch] when every step succeeds. *)
Lemma dispatch_run (r : renderer) (mScale mv invM invP : matrix)
    (b0 b1 b2 b3 b4 b5 : Q) (rest : list Q) (img : cl_image)
    (dt : np_dtype) :
  _stack_scale_mat r = (Val mScale, r) ->
  modelView r = Some mv ->
  forallb (fun row => length row =? length mScale) mv = true ->
  linalg_inv (map (dot_row mScale) mv) = Some invM ->
  linalg_inv (projection r) = Some invP ->
  boxBounds r = b0 :: b1 :: b2 :: b3 :: b4 :: b5 :: rest ->
  dataImg r = Some img -> dtype r = Some dt ->
  dispatch r =
    (Val {| arr_dtype := float32;
            arr_swapped := false;
            arr_shape := [width r; height r];
            arr_flat :=
              max_project
                (kernel_args_of
                   (with_invPBuf (map (np_cast float32) (concat invP))
                      (with_invMBuf (map (np_cast float32) (concat invM)) r))
                   [b0; b1; b2; b3; b4; b5] img dt) |},
     with_kernel_log
       (kernel_args_of
          (with_invPBuf (map (np_cast float32) (concat invP))
             (with_invMBuf (map (np_cast float32) (concat invM)) r))
          [b0; b1; b2; b3; b4; b5] img dt :: kernel_log r)
       (with_buf
          (max_project
             (kernel_args_of
                (with_invPBuf (map (np_cast float32) (concat invP))
                   (with_invMBuf (map (np_cast float32) (concat invM)) r))
                [b0; b1; b2; b3; b4; b5] img dt))
          (with_invPBuf (map (np_cast float32) (concat invP))
             (with_invMBuf (map (np_cast float32) (concat invM)) r)))).
Proof.
  intros Hs Hm Hf HM HP Hb Hi Hd.
  unfold dispatch. unfold bind at 1. rewrite Hs.
  unfold bind at 1. unfold getattr at 1. rewrite Hm.
  unfold bind at 1. unfold np_dot. rewrite Hf. unfold ret at 1.
  unfold bind at 1. unfold py_inv at 1.
  rewrite (linalg_inv_square _ HM), HM. unfold ret at 1.
  unfold bind at 1. unfold modify at 1.
  unfold bind at 1. unfold get at 1.
  unfold bind at 1. unfold py_inv at 1. cbn [projection with_invMBuf].
  rewrite (linalg_inv_square _ HP), HP. unfold ret at 1.
  unfold bind at 1. unfold modify at 1.
  unfold bind at 1. unfold get at 1.
  unfold bind at 1. unfold first_six.
  cbn [boxBounds with_invMBuf with_invPBuf]. rewrite Hb. unfold ret at 1.
  unfold bind at 1. unfold getattr at 1.
  cbn [dataImg with_invMBuf with_invPBuf]. rewrite Hi.
  unfold bind at 1. unfold getattr at 1.
  cbn [dtype with_invMBuf with_invPBuf]. rewrite Hd.
  cbv zeta. unfold bind at 1. unfold modify at 1.
  unfold read_output, bind, get, reshape2.
  cbn [buf width height with_kernel_log with_buf with_invMBuf with_invPBuf].
  rewrite max_project_length.
  cbn [ka_width ka_height kernel_args_of width height with_invMBuf
         with_invPBuf].
  rewrite Nat.eqb_refl. reflexivity.
Qed.

(** X5.  A [render()] that succeeds.  With a three-dimensional image on the
    device, a stored model-view matrix whose rows are as long as the scale
    matrix has rows, both matrix inversions succeeding, at least six clip
    values and a stored element type, [render()] uploads both inverted
    matrices, runs the kernel once on the stored parameters and returns
    what the kernel wrote, in the shape [(width, height)], whatever the
    output buffer held before. *)
Theorem render_success (r : renderer) (mScale mv invM invP : matrix)
    (b0 b1 b2 b3 b4 b5 : Q) (rest : list Q) (img : cl_image)
    (dt : np_dtype) :
  _stack_scale_mat r = (Val mScale, r) ->
  modelView r = Some mv ->
  forallb (fun row => length row =? length mScale) mv = true ->
  linalg_inv (map (dot_row mScale) mv) = Some invM ->
  linalg_inv (projection r) = Some invP ->
  boxBounds r = b0 :: b1 :: b2 :: b3 :: b4 :: b5 :: rest ->
  dataImg r = Some img -> dtype r = Some dt ->
  exists out r' args,
    render no_overrides r = (Val out, r') /\
    arr_shape out = [width r; height r] /\
    arr_flat out = max_project args /\
    length (arr_flat out) = width r * height r /\
    buf r' = max_project args /\
    kernel_log r' = args :: kernel_log r /\
    invMBuf r' = map (np_cast float32) (concat invM) /\
    invPBuf r' = map (np_cast float32) (concat invP) /\
    ka_invM args = invMBuf r' /\ ka_invP args = invPBuf r' /\
    ka_box args = map (np_cast float32) [b0; b1; b2; b3; b4; b5] /\
    ka_maxVal args = np_cast float32 (maxVal r) /\
    ka_gamma args = np_cast float32 (gamma r) /\
    (ka_width args, ka_height args) = (width r, height r) /\
    ka_img args = img /\ ka_isUint16 args = dtype_eqb dt uint16 /\
    inputs r' = inputs r.
Proof.
  intros Hs Hm Hf HM HP Hb Hi Hd.
  rewrite render_no_overrides, Hi, Hm.
  rewrite (dispatch_run r mScale mv invM invP b0 b1 b2 b3 b4 b5 rest img dt
             Hs Hm Hf HM HP Hb Hi Hd).
  eexists _, _, _. split; [reflexivity |].
  cbn. rewrite max_project_length. cbn. repeat split.
Qed.

(** The steps of [dispatch] up to the first inversion, when the
    model-view matrix fits the scale matrix. *)
Lemma dispatch_to_inverse (r : renderer) (mScale mv : matrix) :
  _stack_scale_mat r = (Val mScale, r) ->
  modelView r = Some mv ->
  forallb (fun row => length row =? length mScale) mv = true ->
  dispatch r
  = (invM <- py_inv (map (dot_row mScale) mv) ;;
     modify (with_invMBuf (map (np_cast float32) (concat invM))) ;;
     r <- get ;;
     invP <- py_inv (projection r) ;;
     modify (with_invPBuf (map (np_cast float32) (concat invP))) ;;
     r <- get ;;
     box <- first_six (boxBounds r) ;;
     img <- getattr dataImg ;;
     dt <- getattr dtype ;;
     let args := kernel_args_of r box img dt in
     modify (fun r => with_kernel_log (args :: kernel_log r)
                        (with_buf (max_project args) r)) ;;
     read_output) r.
Proof.
  intros Hs Hm Hf.
  unfold dispatch. unfold bind at 1. rewrite Hs.
  unfold bind at 1. unfold getattr at 1. rewrite Hm.
  unfold bind at 1. unfold np_dot. rewrite Hf. reflexivity.
Qed.

(** X6.  How a [render()] fails on its matrices and its clip box, with an
    image on the device and a scale matrix of finite coefficients.  A
    model-view matrix whose rows do not fit the scale matrix is a
    ValueError; so is a matrix to invert that is not square, while a
    square one whose inversion fails is a LinAlgError.  When it is the
    model-view product that fails the object is untouched, but when it is
    the projection the inverse model-view buffer has already been
    overwritten, and with fewer than six clip values the IndexError comes
    after both matrix buffers were overwritten.  In each case the object
    is otherwise as it was: the kernel is not dispatched. *)
Theorem render_errors (r : renderer) (mScale mv : matrix) (img : cl_image) :
  scale_finite r ->
  _stack_scale_mat r = (Val mScale, r) ->
  modelView r = Some mv -> dataImg r = Some img ->
  (forallb (fun row => length row =? length mScale) mv = false ->
   render no_overrides r = (Raise ValueError, r)) /\
  (forallb (fun row => length row =? length mScale) mv = true ->
   is_square (map (dot_row mScale) mv) = false ->
   render no_overrides r = (Raise ValueError, r)) /\
  (forallb (fun row => length row =? length mScale) mv = true ->
   is_square (map (dot_row mScale) mv) = true ->
   linalg_inv (map (dot_row mScale) mv) = None ->
   render no_overrides r = (Raise LinAlgError, r)) /\
  (forall invM,
     forallb (fun row => length row =? length mScale) mv = true ->
     linalg_inv (map (dot_row mScale) mv) = Some invM ->
     is_square (projection r) = false ->
     render no_overrides r
       = (Raise ValueError,
          with_invMBuf (map (np_cast float32) (concat invM)) r)) /\
  (forall invM,
     forallb (fun row => length row =? length mScale) mv = true ->
     linalg_inv (map (dot_row mScale) mv) = Some invM ->
     is_square (projection r) = true ->
     linalg_inv (projection r) = None ->
     render no_overrides r
       = (Raise LinAlgError,
          with_invMBuf (map (np_cast float32) (concat invM)) r)) /\
  (forall invM invP,
     forallb (fun row => length row =? length mScale) mv = true ->
     linalg_inv (map (dot_row mScale) mv) = Some invM ->
     linalg_inv (projection r) = Some invP ->
     length (boxBounds r) < 6 ->
     render no_overrides r
       = (Raise IndexError,
          with_invPBuf (map (np_cast float32) (concat invP))
            (with_invMBuf (map (np_cast float32) (concat invM)) r))).
Proof.
  intros _ Hs Hm Hi.
  rewrite render_no_overrides, Hi, Hm.
  split; [| split; [| split; [| split; [| split]]]].
  - intros Hf. unfold dispatch. unfold bind at 1. rewrite Hs.
    unfold bind at 1. unfold getattr at 1. rewrite Hm.
    unfold bind at 1. unfold np_dot. rewrite Hf. reflexivity.
  - intros Hf Hq. rewrite (dispatch_to_inverse r mScale mv Hs Hm Hf).
    unfold bind at 1. unfold py_inv at 1. rewrite Hq. reflexivity.
  - intros Hf Hq HM. rewrite (dispatch_to_inverse r mScale mv Hs Hm Hf).
    unfold bind at 1. unfold py_inv at 1. rewrite Hq, HM. reflexivity.
  - intros invM Hf HM Hq. rewrite (dispatch_to_inverse r mScale mv Hs Hm Hf).
    unfold bind at 1. unfold py_inv at 1.
    rewrite (linalg_inv_square _ HM), HM. unfold ret at 1.
    unfold bind at 1. unfold modify at 1.
    unfold bind at 1. unfold get at 1.
    unfold bind at 1. unfold py_inv at 1. cbn [projection with_invMBuf].
    rewrite Hq. reflexivity.
  - intros invM Hf HM Hq HP. rewrite (dispatch_to_inverse r mScale mv Hs Hm Hf).
    unfold bind at 1. unfold py_inv at 1.
    rewrite (linalg_inv_square _ HM), HM. unfold ret at 1.
    unfold bind at 1. unfold modify at 1.
    unfold bind at 1. unfold get at 1.
    unfold bind at 1. unfold py_inv at 1. cbn [projection with_invMBuf].
    rewrite Hq, HP. reflexivity.
  - intros invM invP Hf HM HP Hb.
    rewrite (dispatch_to_inverse r mScale mv Hs Hm Hf).
    unfold bind at 1. unfold py_inv at 1.
    rewrite (linalg_inv_square _ HM), HM. unfold ret at 1.
    unfold bind at 1. unfold modify at 1.
    unfold bind at 1. unfold get at 1.
    unfold bind at 1. unfold py_inv at 1. cbn [projection with_invMBuf].
    rewrite (linalg_inv_square _ HP), HP. unfold ret at 1.
    unfold bind at 1. unfold modify at 1.
    unfold bind at 1. unfold get at 1.
    unfold bind at 1. unfold first_six.
    cbn [boxBounds with_invMBuf with_invPBuf].
    destruct (boxBounds r) as [|c0 [|c1 [|c2 [|c3 [|c4 [|c5 l]]]]]];
      try reflexivity.
    simpl in Hb. lia.
Qed.

(** X7.  Unless [data] is passed, no [render] call touches the volume, the
    element type, the output size or the device description: whether it
    returns or raises, it writes only the camera values it was given, the
    two matrix buffers, the output buffer and the dispatch log. *)
Theorem render_keeps_volume (ov : overrides) (r : renderer) :
  ov_data ov = None ->
  (width (snd (render ov r)), height (snd (render ov r)))
    = (width r, height r) /\
  dtype (snd (render ov r)) = dtype r /\
  dataImg (snd (render ov r)) = dataImg r /\
  _data (snd (render ov r)) = _data r /\
  dataSlices (snd (render ov r)) = dataSlices r /\
  (isGPU (snd (render ov r)), dtypes (snd (render ov r)),
   memMax (snd (render ov r))) = (isGPU r, dtypes r, memMax r) /\
  boxBounds (snd (render ov r)) = boxBounds r.
Proof.
  intros Hd.
  pose (P := fun x : renderer =>
               (width x, height x, dtype x, dataImg x, _data x,
                dataSlices x, isGPU x, dtypes x, memMax x, boxBounds x)
               = (width r, height r, dtype r, dataImg r, _data r,
                  dataSlices r, isGPU r, dtypes r, memMax r, boxBounds r)).
  assert (H : preserves P (render ov)).
  { destruct ov as [d u v g m p b]. simpl in Hd. subst d.
    unfold render, apply_overrides, dispatch, set_max_val, set_gamma,
      set_units, set_modelView, set_projection, array_truth, read_output,
      reshape2, _stack_scale_mat, np_dot, py_inv, first_six.
    cbn [ov_data ov_maxVal ov_gamma ov_stackUnits ov_modelView
           ov_projection py_when].
    pres ltac:(idtac; match goal with
                      | |- forall x, P x -> P _ =>
                          let x := fresh "x" in
                          let H := fresh "H" in
                          intros x H; exact H
                      end). }
  specialize (H r eq_refl). unfold P in H. inversion H. repeat split.
Qed.

(** X8.  Passing arguments to [render] is calling the setters first.  Without
    a [modelView] argument, [render(data, stackUnits, maxVal, gamma,
    projection)] is [set_data(data)], [set_max_val], [set_gamma],
    [set_units] and [set_projection] for the arguments given, in this
    order, followed by [render()], with the same result, the same
    exception and the same final object. *)
Theorem render_is_setters_then_render (ov : overrides) (r : renderer) :
  ov_modelView ov = None ->
  render ov r
    = (py_when (ov_data ov) (fun d => set_data d true false) ;;
       py_when (ov_maxVal ov) set_max_val ;;
       py_when (ov_gamma ov) set_gamma ;;
       py_when (ov_stackUnits ov) set_units ;;
       py_when (ov_projection ov) set_projection ;;
       render no_overrides) r.
Proof.
  intros Hm. destruct ov as [d u v g m p b]. simpl in Hm. subst m.
  unfold render at 1. unfold apply_overrides.
  cbn [ov_data ov_maxVal ov_gamma ov_stackUnits ov_modelView ov_projection].
  unfold bind.
  destruct (py_when d (fun d0 => set_data d0 true false) r)
    as [[[] | e] r0]; [| reflexivity].
  destruct u, v, g, p; reflexivity.
Qed.

End RenderPaths.

Lemma render_success_witness :
  exists out r',
    render no_overrides
      (soft_renderer_with (ones_of float32 [2; 2; 2]) (Some (3, 2)))
      = (Val out, r') /\
    arr_shape out = [3; 2] /\ length (arr_flat out) = 6.
Proof.
  edestruct (@render_success soft_backend
               (soft_renderer_with (ones_of float32 [2; 2; 2]) (Some (3, 2))))
    as [out [r' [args [E [S [_ [L _]]]]]]].
  - lazy. reflexivity.
  - lazy. reflexivity.
  - lazy. reflexivity.
  - lazy. reflexivity.
  - lazy. reflexivity.
  - lazy. reflexivity.
  - lazy. reflexivity.
  - lazy. reflexivity.
  - exists out, r'. split; [exact E |]. split; [exact S | exact L].
Defined.

Lemma render_errors_witness :
  fst (render no_overrides
         (snd (set_projection (mat4_scale 0 0 0)
                 (soft_renderer_with (ones_of float32 [2; 2; 2])
                                     (Some (3, 2))))))
    = Raise LinAlgError /\
  fst (render no_overrides
         (snd (set_modelView [[1; 0; 0; 0]; [0; 1; 0; 0]; [0; 0; 1; 0]]%Q
                 (soft_renderer_with (ones_of float32 [2; 2; 2])
                                     (Some (3, 2))))))
    = Raise ValueError.
Proof.
  split.
  - edestruct (@render_errors soft_backend
                 (snd (set_projection (mat4_scale 0 0 0)
                         (soft_renderer_with (ones_of float32 [2; 2; 2])
                                             (Some (3, 2))))))
      as [_ [_ [_ [_ [H _]]]]].
    + eexists. split; [vm_compute; reflexivity |].
      intros E. vm_compute in E. discriminate E.
    + lazy. reflexivity.
    + lazy. reflexivity.
    + lazy. reflexivity.
    + erewrite H.
      * reflexivity.
      * lazy. reflexivity.
      * lazy. reflexivity.
      * lazy. reflexivity.
      * lazy. reflexivity.
  - edestruct (@render_errors soft_backend
                 (snd (set_modelView
                         [[1; 0; 0; 0]; [0; 1; 0; 0]; [0; 0; 1; 0]]%Q
                         (soft_renderer_with (ones_of float32 [2; 2; 2])
                                             (Some (3, 2))))))
      as [_ [H _]].
    + eexists. split; [vm_compute; reflexivity |].
      intros E. vm_compute in E. discriminate E.
    + lazy. reflexivity.
    + lazy. reflexivity.
    + lazy. reflexivity.
    + erewrite H.
      * reflexivity.
      * lazy. reflexivity.
      * lazy. reflexivity.
Defined.

Lemma render_keeps_volume_witness :
  dataImg (snd (render (only_maxVal 5)
                  (soft_renderer_with (ones_of float32 [2; 2; 2])
                                      (Some (3, 2)))))
    = dataImg (soft_renderer_with (ones_of float32 [2; 2; 2]) (Some (3, 2))).
Proof.
  exact (proj1 (proj2 (proj2
           (@render_keeps_volume soft_backend (only_maxVal 5)
              (soft_renderer_with (ones_of float32 [2; 2; 2]) (Some (3, 2)))
              eq_refl)))).
Defined.

Lemma render_is_setters_then_render_witness :
  render (only_maxVal 5) (soft_renderer (Some (3, 2)))
    = (set_max_val 5 ;; render no_overrides) (soft_renderer (Some (3, 2))).
Proof.
  exact (@render_is_setters_then_render soft_backend (only_maxVal 5)
           (soft_renderer (Some (3, 2))) eq_refl).
Defined.

Lemma stack_scale_mat_errors_witness :
  render no_overrides
    (soft_renderer_with (ones_of float32 [2; 2]) (Some (3, 2)))
    = (Raise ValueError,
       soft_renderer_with (ones_of float32 [2; 2]) (Some (3, 2))).
Proof.
  refine (proj2 (proj2 (proj2 (proj2
            (@stack_scale_mat_errors soft_backend
               (soft_renderer_with (ones_of float32 [2; 2]) (Some (3, 2)))))))
            {| img_shape := [2; 2]; img_channel := float32;
               img_order_Rx := false;
               img_data := Some (ones_of float32 [2; 2]) |}
            mat4_identity _ eq_refl _).
  - vm_compute. reflexivity.
  - left. vm_compute. discriminate.
Defined.

(** ** Does the downsampled volume fit? *)

Lemma nbytes_strided (d : ndarray) (s : nat) :
  nbytes (getitem d (strided s (arr_shape d)))
    = itemsize (arr_dtype d)
      * prod_shape (map (fun n => ceil_div n s) (arr_shape d)).
Proof. unfold nbytes, getitem. simpl. rewrite slice_shape_strided. reflexivity. Qed.

Lemma ceil_div_le (n s : nat) : 0 < s -> ceil_div n s <= n.
Proof. intros Hs. apply ceil_div_least; nia. Qed.

Lemma Nstep_positive (d : ndarray) (r : renderer) :
  0 < memMax r -> 0 < nbytes d -> 0 < Nstep_of d r.
Proof.
  intros Hm Hn. unfold Nstep_of.
  destruct (ceil_sqrt_ratio_spec (nbytes d) (memMax r) Hm) as [G _].
  destruct (ceil_sqrt_ratio (nbytes d) (memMax r)); [simpl in G; lia | lia].
Qed.

Lemma fits_two_axes (I a b c c' s q : nat) :
  0 < s -> c' <= c -> I * (a * s * (b * s * c)) <= s * s * q ->
  I * (a * (b * c')) <= q.
Proof.
  intros Hs Hc G.
  assert (H1 : I * (a * (b * c)) * (s * s) <= q * (s * s)) by nia.
  assert (H2 : I * (a * (b * c)) <= q).
  { apply Nat.mul_le_mono_pos_r with (p := s * s); [nia | exact H1]. }
  assert (H3 : I * (a * (b * c')) <= I * (a * (b * c))).
  { apply Nat.mul_le_mono_l, Nat.mul_le_mono_l, Nat.mul_le_mono_l, Hc. }
  lia.
Qed.

(** X9.  The stride suffices when it divides two axes.  For a non-empty
    three-dimensional volume, if the stride that
    [_get_downsampled_data_slices] computes divides the lengths of two of
    the three axes, the volume sliced with that stride is within the
    device's maximal allocation. *)
Theorem downsampled_fits (r : renderer) (d : ndarray) (n1 n2 n3 : nat) :
  arr_shape d = [n1; n2; n3] -> 0 < memMax r -> 0 < nbytes d ->
  (Nat.divide (Nstep_of d r) n1 /\ Nat.divide (Nstep_of d r) n2) \/
  (Nat.divide (Nstep_of d r) n1 /\ Nat.divide (Nstep_of d r) n3) \/
  (Nat.divide (Nstep_of d r) n2 /\ Nat.divide (Nstep_of d r) n3) ->
  fits d (memMax r) (Nstep_of d r).
Proof.
  intros Hsh Hm Hn Hdiv.
  pose proof (Nstep_positive d r Hm Hn) as Hs.
  assert (G : nbytes d <= Nstep_of d r * Nstep_of d r * memMax r).
  { apply ceil_sqrt_ratio_spec. exact Hm. }
  unfold fits. rewrite nbytes_strided.
  unfold nbytes in G. rewrite Hsh in *. cbn [map prod_shape fold_right] in *.
  rewrite !Nat.mul_1_r in *.
  set (s := Nstep_of d r) in *. set (I := itemsize (arr_dtype d)) in *.
  set (q := memMax r) in *.
  destruct Hdiv as [[[a Ha] [b Hb]] | [[[a Ha] [b Hb]] | [[a Ha] [b Hb]]]];
    subst.
  - rewrite !ceil_div_exact by exact Hs.
    apply (fits_two_axes I a b n3 (ceil_div n3 s) s q Hs
             (ceil_div_le n3 s Hs)). exact G.
  - rewrite !ceil_div_exact by exact Hs.
    replace (I * (a * (ceil_div n2 s * b)))
      with (I * (a * (b * ceil_div n2 s))) by nia.
    apply (fits_two_axes I a b n2 (ceil_div n2 s) s q Hs
             (ceil_div_le n2 s Hs)). nia.
  - rewrite !ceil_div_exact by exact Hs.
    replace (I * (ceil_div n1 s * (a * b)))
      with (I * (a * (b * ceil_div n1 s))) by nia.
    apply (fits_two_axes I a b n1 (ceil_div n1 s) s q Hs
             (ceil_div_le n1 s Hs)). nia.
Qed.

(** X10.  The stride can fall short.  A volume that is a single line along its
    last axis and takes at least three times the device's maximal
    allocation is, after slicing with the computed stride, still larger
    than the maximal allocation. *)
Theorem line_volume_stays_too_big (r : renderer) (d : ndarray) (n : nat) :
  arr_shape d = [1; 1; n] -> 0 < memMax r -> 3 * memMax r <= nbytes d ->
  ~ fits d (memMax r) (Nstep_of d r).
Proof.
  intros Hsh Hm Hn F.
  pose proof (Nstep_positive d r Hm ltac:(lia)) as Hs.
  destruct (ceil_sqrt_ratio_spec (nbytes d) (memMax r) Hm) as [_ L].
  fold (Nstep_of d r) in L.
  unfold fits in F. rewrite nbytes_strided in F.
  unfold nbytes in *. rewrite Hsh in *. cbn [map prod_shape fold_right] in *.
  set (s := Nstep_of d r) in *. set (I := itemsize (arr_dtype d)) in *.
  set (q := memMax r) in *.
  assert (C1 : ceil_div 1 s = 1).
  { apply Nat.le_antisymm; [apply ceil_div_le, Hs |].
    pose proof (ceil_div_ge 1 s Hs). nia. }
  rewrite C1 in F.
  pose proof (ceil_div_ge n s Hs) as Hc.
  assert (P : I * (1 * (1 * (n * 1))) <= q * s) by nia.
  assert (S2 : s <= 2).
  { destruct (Nat.le_gt_cases s 2) as [H | H]; [exact H |].
    assert (Hle : s <= s - 1).
    { apply L. assert (s - 1 >= 2) by lia. nia. }
    lia. }
  nia.
Qed.

Lemma downsampled_fits_witness :
  fits (ones_of float32 [20; 20; 9])
       (memMax (soft_renderer (Some (2, 2))))
       (Nstep_of (ones_of float32 [20; 20; 9]) (soft_renderer (Some (2, 2)))).
Proof.
  apply (downsampled_fits (soft_renderer (Some (2, 2)))
           (ones_of float32 [20; 20; 9]) 20 20 9 eq_refl).
  - vm_compute. lia.
  - apply Nat.ltb_lt. vm_compute. reflexivity.
  - left. split; exists 5; vm_compute; reflexivity.
Defined.

Lemma line_volume_stays_too_big_witness :
  ~ fits (ones_of float32 [1; 1; 1000])
         (memMax (soft_renderer (Some (2, 2))))
         (Nstep_of (ones_of float32 [1; 1; 1000])
                   (soft_renderer (Some (2, 2)))).
Proof.
  apply (line_volume_stays_too_big (soft_renderer (Some (2, 2)))
           (ones_of float32 [1; 1; 1000]) 1000 eq_refl).
  - vm_compute. lia.
  - apply Nat.leb_le. vm_compute. reflexivity.
Defined.

(** ** [update_data] after [set_data] *)

Section UpdateData.
Context {B : Backend}.

(** X11.  [update_data] reuses what [set_data] stored.  Before any [set_data]
    it fails with an AttributeError and changes nothing.  After a
    [set_data], [update_data] of a volume of the same shape, of whatever
    element type, returns; the array it uploads has the stored element
    type and, reversed, the shape of the device image, which is not
    created anew. *)
Theorem update_data_after_set_data (r : renderer) (data data2 : ndarray)
    (cp cp2 : bool) (dt : np_dtype) :
  dtype r = Some dt -> 0 < memMax r ->
  arr_shape data2 = arr_shape data ->
  (dataSlices r = None ->
   update_data data2 cp2 r = (Raise AttributeError, r)) /\
  exists r1 r2 u2 img,
    set_data data true cp r = (Val tt, r1) /\
    update_data data2 cp2 r1 = (Val tt, r2) /\
    _data r2 = Some u2 /\ dtype r2 = Some (arr_dtype u2) /\
    dtype r2 = dtype r1 /\
    dataImg r2 = Some img /\ img_data img = Some u2 /\
    img_shape img = rev (arr_shape u2) /\
    (exists img1, dataImg r1 = Some img1 /\ img_shape img = img_shape img1).
Proof.
  intros Hdt Hm Hsh. split.
  { intros Hs. unfold update_data, bind, getattr. rewrite Hs. reflexivity. }
  destruct (set_data_run r data true cp dt Hdt Hm (or_introl eq_refl))
    as [r1 [E1 [D1 [_ [S1 [_ I1]]]]]].
  pose proof (uploaded_shape (converted data dt r) (memMax r)) as Hu.
  assert (Hc : arr_shape (converted data dt r) = arr_shape data).
  { unfold converted. destruct (dtype_in _ _); reflexivity. }
  rewrite Hc in Hu. fold (Nstep_of (converted data dt r) r) in Hu.
  set (s := Nstep_of (converted data dt r) r) in *.
  exists r1.
  destruct (Nat.ltb_spec 1 s) as [Hs1 | Hs1].
  - assert (Hlen : forall s0,
               Some (strided s (arr_shape data)) = Some s0 ->
               length s0 <= length (arr_shape data2) /\
               existsb (fun x => sl_step x =? 0) s0 = false).
    { intros s0 E. injection E as <-. split.
      - unfold strided. rewrite length_map, Hsh. apply Nat.le_refl.
      - apply strided_steps. lia. }
    pose proof (update_data_run r1 data2 cp2 _ _ _ S1 D1 I1 Hlen) as E2.
    eexists _, _, _.
    split; [exact E1 |]. split; [exact E2 |].
    split; [reflexivity |].
    split; [cbn; rewrite stored_as_dtype; exact D1 |].
    split; [reflexivity |]. split; [reflexivity |]. split; [reflexivity |].
    split.
    + cbn. rewrite stored_as_shape, Hu. f_equal.
      unfold getitem, arr_shape at 2. rewrite Hsh.
      symmetry. apply slice_shape_strided.
    + eexists. split; [exact I1 | reflexivity].
  - assert (Hlen : forall s0 : list slice,
               None = Some s0 ->
               length s0 <= length (arr_shape data2) /\
               existsb (fun x => sl_step x =? 0) s0 = false).
    { intros s0 E. discriminate E. }
    pose proof (update_data_run r1 data2 cp2 _ _ _ S1 D1 I1 Hlen) as E2.
    eexists _, _, _.
    split; [exact E1 |]. split; [exact E2 |].
    split; [reflexivity |].
    split; [cbn; rewrite stored_as_dtype; exact D1 |].
    split; [reflexivity |]. split; [reflexivity |]. split; [reflexivity |].
    split.
    + cbn. rewrite stored_as_shape, Hu, Hsh. reflexivity.
    + eexists. split; [exact I1 | reflexivity].
Qed.

End UpdateData.

Lemma update_data_after_set_data_witness :
  exists r1 r2 u2,
    set_data (ones_of float32 [4; 4; 4]) true false
             (snd (VolumeRenderer_init (Some 64) None (Some (2, 2)) blank))
      = (Val tt, r1) /\
    update_data (ones_of uint8 [4; 4; 4]) false r1 = (Val tt, r2) /\
    _data r2 = Some u2 /\ dtype r2 = Some (arr_dtype u2).
Proof.
  destruct (@update_data_after_set_data soft_backend
              (snd (VolumeRenderer_init (Some 64) None (Some (2, 2)) blank))
              (ones_of float32 [4; 4; 4]) (ones_of uint8 [4; 4; 4])
              false false float32 eq_refl ltac:(vm_compute; lia) eq_refl)
    as [_ [r1 [r2 [u2 [img [E1 [E2 [U [D _]]]]]]]]].
  exists r1, r2, u2. auto.
Defined.

(** ** Once a volume is on the device *)

Section Ready.
Context {B : Backend}.

Ltac ready_upd :=
  idtac;
  match goal with
  | |- forall x, ready x -> ready _ =>
      let x := fresh "x" in
      let H1 := fresh "H" in
      let H2 := fresh "H" in
      intros x [H1 H2]; split; cbn; first [assumption | discriminate]
  end.

Lemma preserves_ready_set_data d ac cp : preserves ready (set_data d ac cp).
Proof.
  unfold set_data, set_dtype, reset_buffer, _get_downsampled_data_slices,
    set_shape, update_data.
  pres ready_upd.
Qed.

Lemma preserves_ready_apply_overrides ov :
  preserves ready (apply_overrides ov).
Proof.
  unfold apply_overrides, set_max_val, set_gamma, set_units, set_modelView,
    set_projection.
  pres ltac:(first [ ready_upd | apply preserves_ready_set_data ]).
Qed.

Lemma preserves_ready_render ov : preserves ready (render ov).
Proof.
  unfold render, dispatch, array_truth, read_output, reshape2,
    _stack_scale_mat, np_dot, py_inv, first_six.
  pres ltac:(first [ ready_upd | apply preserves_ready_apply_overrides ]).
Qed.

Lemma exec_ready (c : call) (r : renderer) : ready r -> ready (exec c r).
Proof.
  intros H. destruct c; simpl;
    try (apply preserves_ready_set_data, H);
    try (apply preserves_ready_render, H).
  - revert r H. change (preserves ready (resize size)).
    unfold resize, reset_buffer. pres ready_upd.
  - revert r H. change (preserves ready reset_buffer).
    unfold reset_buffer. pres ready_upd.
  - revert r H. change (preserves ready (set_dtype d)).
    unfold set_dtype, reset_buffer. pres ready_upd.
  - revert r H. change (preserves ready (set_shape dataShape)).
    unfold set_shape. pres ready_upd.
  - revert r H. change (preserves ready (update_data data copyData)).
    unfold update_data. pres ready_upd.
  - destruct H as [H1 H2]. split; assumption.
  - destruct H as [H1 H2]. split; assumption.
  - destruct H as [H1 H2]. split; assumption.
  - destruct H as [H1 H2]. split; assumption.
  - destruct H as [H1 H2]. split; assumption.
  - destruct H as [H1 H2]. split; [assumption | discriminate].
Qed.

Lemma init_modelView gpu cpu size r :
  VolumeRenderer_init gpu cpu size blank = (Val tt, r) ->
  modelView r <> None.
Proof.
  intros E. unfold VolumeRenderer_init in E.
  replace (match size with
           | Some sz => resize sz
           | None => resize (200, 200)
           end) with (resize (or_old size (200, 200))) in E
    by (destruct size; reflexivity).
  destruct (or_old size (200, 200)) as [w h].
  destruct gpu as [g|]; [| destruct cpu as [c|]; [| discriminate]];
    cbn in E; inversion E; subst; clear E; cbn; discriminate.
Qed.

(** The two ways in which a [render] call returns. *)
Lemma render_val_cases (ov : overrides) (r r' : renderer) (out : ndarray) :
  render ov r = (Val out, r') ->
  exists r1,
    apply_overrides ov r = (Val tt, r1) /\
    (dispatch r1 = (Val out, r') \/
     (read_output r1 = (Val out, r') /\
      (dataImg r1 = None \/ modelView r1 = None))).
Proof.
  intros E. unfold render in E. unfold bind at 1 in E.
  destruct (apply_overrides ov r) as [[[] | e] r1] eqn:E1; [| discriminate].
  exists r1. split; [reflexivity |].
  unfold bind at 1 in E. unfold get at 1 in E.
  destruct (dataImg r1) as [im|] eqn:Hi.
  - unfold bind at 1 in E.
    destruct (match ov_modelView ov with
              | Some m => t <- array_truth m ;; ret (negb t)
              | None => ret true
              end r1) as [[falsy | e] r2] eqn:G; [| discriminate].
    assert (r2 = r1) as ->.
    { destruct (ov_modelView ov) as [m|]; [| inversion G; reflexivity].
      unfold array_truth, bind, ret, raise in G.
      destruct (concat m) as [|x [|y l]]; inversion G; reflexivity. }
    destruct (modelView r1) as [mv|] eqn:Hm.
    + rewrite andb_false_r in E. left. exact E.
    + destruct falsy; cbn in E.
      * right. split; [exact E | right; reflexivity].
      * left. exact E.
  - right. split; [exact E | left; reflexivity].
Qed.

(** X12.  Once a volume is on the device no [render] returns a stale image.
    [__init__] stores a model-view matrix and [set_data] an image, no
    method ever removes either, and from then on every [render] call that
    returns, with whatever arguments, has run the kernel exactly once, on
    the parameters the object stores, and returns what the kernel wrote;
    the second guard of [render] is never taken. *)
Theorem ready_render_dispatches :
  (forall gpu cpu size r0 data ac cp r,
      VolumeRenderer_init gpu cpu size blank = (Val tt, r0) ->
      set_data data ac cp r0 = (Val tt, r) -> ready r) /\
  (forall c r, ready r -> ready (exec c r)) /\
  (forall ov r out r',
      ready r -> render ov r = (Val out, r') ->
      exists args,
        kernel_log r' = args :: kernel_log r /\ args_match args r' /\
        arr_flat out = max_project args).
Proof.
  split; [| split].
  - intros gpu cpu size r0 data ac cp r E0 E.
    assert (R0 : modelView r0 <> None) by exact (init_modelView _ _ _ _ E0).
    destruct (set_data_uploads data ac cp r0 tt r E)
      as [d [a [img [_ [_ [_ [_ [Hi _]]]]]]]].
    split; [rewrite Hi; discriminate |].
    assert (K : preserves (fun x => modelView x <> None)
                          (set_data data ac cp)).
    { unfold set_data, set_dtype, reset_buffer,
        _get_downsampled_data_slices, set_shape, update_data.
      pres ltac:(idtac; match goal with
                        | |- forall x, _ <> None -> _ <> None =>
                            let x := fresh "x" in
                            let H := fresh "H" in
                            intros x H; exact H
                        end). }
    specialize (K r0 R0). rewrite E in K. exact K.
  - exact exec_ready.
  - intros ov r out r' Hr E.
    destruct (render_val_cases ov r r' out E) as [r1 [E1 C]].
    pose proof (preserves_ready_apply_overrides ov r Hr) as R1.
    rewrite E1 in R1. simpl in R1.
    destruct (apply_overrides_returns ov r r1 E1) as [_ Hl].
    destruct C as [D | [_ [N | N]]].
    + destruct (dispatch_val r1 r' out D) as [_ [args [L [A F]]]].
      exists args. rewrite L, Hl. auto.
    + destruct R1 as [R _]. contradiction.
    + destruct R1 as [_ R]. contradiction.
Qed.

Lemma cons_neq {A} (a : A) (l : list A) : a :: l <> l.
Proof.
  intros E. apply (f_equal (@length A)) in E. simpl in E. lia.
Qed.

(** X13.  The kernel is told the type of what was uploaded.  After a
    [set_data], every [render] call without a [data] argument that
    dispatches the kernel passes it the image that holds the uploaded
    array, with the array's element type as channel type, the array's
    reversed shape as shape, and an [isUint16] flag that says whether the
    array is uint16. *)
Theorem kernel_flag_matches_upload (r : renderer) (data : ndarray)
    (cp : bool) (dt : np_dtype) :
  dtype r = Some dt -> 0 < memMax r ->
  exists r1 a,
    set_data data true cp r = (Val tt, r1) /\ _data r1 = Some a /\
    forall ov out r2 args,
      ov_data ov = None -> render ov r1 = (Val out, r2) ->
      kernel_log r2 = args :: kernel_log r1 ->
      img_data (ka_img args) = Some a /\
      img_channel (ka_img args) = arr_dtype a /\
      img_shape (ka_img args) = rev (arr_shape a) /\
      ka_isUint16 args = dtype_eqb (arr_dtype a) uint16.
Proof.
  intros Hdt Hm.
  destruct (set_data_run r data true cp dt Hdt Hm (or_introl eq_refl))
    as [r1 [E [D [_ [_ [U I]]]]]].
  exists r1, (uploaded (converted data dt r) (memMax r)).
  split; [exact E |]. split; [exact U |].
  assert (Hty : arr_dtype (uploaded (converted data dt r) (memMax r))
                = arr_dtype (converted data dt r))
    by apply uploaded_dtype.
  intros ov out r2 args Hd R L.
  destruct (render_val_cases ov r1 r2 out R) as [r1' [E1 C]].
  rewrite (apply_overrides_no_data ov r1 Hd) in E1.
  inversion E1; subst r1'; clear E1.
  destruct C as [Dp | [S _]].
  - destruct (dispatch_val _ r2 out Dp) as [K [args' [L' [A _]]]].
    cbn in L'. rewrite L in L'. inversion L'; subst args'; clear L'.
    destruct A as [_ [_ [_ [_ [_ [_ [_ [Hi [[dt' [Hd' Hf]] _]]]]]]]]].
    unfold inputs in K. inversion K as [[K1 K2 K3 K4 K5 K6 K7 K8 K9 K10]].
    cbn in K3, K10. rewrite K10, I in Hi. inversion Hi as [Hi'].
    rewrite K3, D in Hd'. inversion Hd'; subst dt'.
    rewrite Hf, Hty. cbn. repeat split.
  - destruct (read_output_val _ r2 out S) as [-> _].
    cbn in L. symmetry in L. destruct (cons_neq _ _ L).
Qed.

End Ready.

Lemma ready_render_dispatches_witness :
  ready (soft_renderer_with (ones_of float32 [2; 2; 2]) (Some (3, 2))) /\
  ready (exec (SetDtype (Some uint16))
           (soft_renderer_with (ones_of float32 [2; 2; 2]) (Some (3, 2)))) /\
  exists args,
    kernel_log
      (snd (render (only_maxVal 5)
              (soft_renderer_with (ones_of float32 [2; 2; 2]) (Some (3, 2)))))
      = [args] /\
    args_match args
      (snd (render (only_maxVal 5)
              (soft_renderer_with (ones_of float32 [2; 2; 2]) (Some (3, 2))))).
Proof.
  assert (H : ready (soft_renderer_with (ones_of float32 [2; 2; 2])
                                        (Some (3, 2)))).
  { apply (proj1 (@ready_render_dispatches soft_backend)
             (Some 1000) None (Some (3, 2)) (soft_renderer (Some (3, 2)))
             (ones_of float32 [2; 2; 2]) true false).
    - vm_compute. reflexivity.
    - vm_compute. reflexivity. }
  split; [exact H |]. split.
  - apply (proj1 (proj2 (@ready_render_dispatches soft_backend))). exact H.
  - set (r0 := soft_renderer_with (ones_of float32 [2; 2; 2]) (Some (3, 2)))
      in *.
    assert (E : exists out,
               render (only_maxVal 5) r0
               = (Val out, snd (render (only_maxVal 5) r0))).
    { eexists. vm_compute. reflexivity. }
    destruct E as [out E].
    assert (K0 : kernel_log r0 = []) by (vm_compute; reflexivity).
    destruct (proj2 (proj2 (@ready_render_dispatches soft_backend))
                (only_maxVal 5) r0 out _ H E) as [args [L [A _]]].
    exists args. split; [rewrite K0 in L; exact L | exact A].
Defined.

Lemma kernel_flag_matches_upload_witness :
  exists r1 a,
    set_data (ones_of uint16 [2; 2; 2]) true false
             (soft_renderer (Some (3, 2))) = (Val tt, r1) /\
    _data r1 = Some a.
Proof.
  destruct (@kernel_flag_matches_upload soft_backend
              (soft_renderer (Some (3, 2))) (ones_of uint16 [2; 2; 2])
              false float32 eq_refl ltac:(vm_compute; lia))
    as [r1 [a [E [U _]]]].
  exists r1, a. split; assumption.
Defined.

(** ** Conversion and slicing of the uploaded array *)

Section Conversion.
Context {B : Backend}.

(** X14.  The target of the automatic conversion is the type of the volume
    before.  After a [set_data] of a volume of a supported element type,
    a [set_data] of a volume of an unsupported type uploads it converted
    to the first volume's type, not to the default type. *)
Theorem conversion_follows_previous_volume (r : renderer)
    (data1 data2 : ndarray) (cp1 cp2 : bool) (dt : np_dtype) :
  dtype r = Some dt -> 0 < memMax r ->
  dtype_in (arr_dtype data1) (dtypes r) = true ->
  dtype_in (arr_dtype data2) (dtypes r) = false ->
  exists r1 r2 u,
    set_data data1 true cp1 r = (Val tt, r1) /\
    set_data data2 true cp2 r1 = (Val tt, r2) /\
    _data r2 = Some u /\ arr_dtype u = arr_dtype data1 /\
    dtype r2 = Some (arr_dtype data1).
Proof.
  intros Hdt Hm H1 H2.
  destruct (set_data_run r data1 true cp1 dt Hdt Hm (or_introl eq_refl))
    as [r1 [E1 [D1 [T1 _]]]].
  unfold converted in D1. rewrite H1 in D1.
  assert (M1 : memMax r1 = memMax r).
  { assert (K : preserves (fun x => memMax x = memMax r)
                          (set_data data1 true cp1)).
    { unfold set_data, set_dtype, reset_buffer,
        _get_downsampled_data_slices, set_shape, update_data.
      pres ltac:(idtac; match goal with
                        | |- forall x, memMax x = _ -> memMax _ = _ =>
                            let x := fresh "x" in
                            let H := fresh "H" in
                            intros x H; exact H
                        end). }
    specialize (K r eq_refl). rewrite E1 in K. exact K. }
  destruct (set_data_run r1 data2 true cp2 (arr_dtype data1) D1
              ltac:(lia) (or_introl eq_refl))
    as [r2 [E2 [D2 [_ [_ [U2 _]]]]]].
  unfold converted in D2, U2. rewrite T1, H2 in D2, U2.
  exists r1, r2. eexists. split; [exact E1 |]. split; [exact E2 |].
  split; [exact U2 |]. split; [| exact D2].
  rewrite uploaded_dtype. reflexivity.
Qed.

End Conversion.

Lemma conversion_follows_previous_volume_witness :
  exists r1 r2 u,
    set_data (ones_of uint16 [2; 2; 2]) true false
             (soft_renderer (Some (2, 2))) = (Val tt, r1) /\
    set_data (ones_of uint8 [2; 2; 2]) true false r1 = (Val tt, r2) /\
    _data r2 = Some u /\ arr_dtype u = uint16.
Proof.
  destruct (@conversion_follows_previous_volume soft_backend
              (soft_renderer (Some (2, 2)))
              (ones_of uint16 [2; 2; 2]) (ones_of uint8 [2; 2; 2])
              false false float32 eq_refl ltac:(vm_compute; lia)
              eq_refl eq_refl)
    as [r1 [r2 [u [E1 [E2 [U [D _]]]]]]].
  exists r1, r2, u. auto.
Defined.

(** ** The sliced array is well formed *)

Lemma ceil_div_step (n s : nat) :
  0 < s -> ceil_div (S n) s = S (ceil_div (n - (s - 1)) s).
Proof.
  intros Hs. unfold ceil_div.
  replace (S n + s - 1) with (n + 1 * s) by lia.
  rewrite Nat.div_add by lia.
  destruct (Nat.le_gt_cases (s - 1) n) as [H | H].
  - replace (n - (s - 1) + s - 1) with n by lia. lia.
  - replace (n - (s - 1) + s - 1) with (s - 1) by lia.
    rewrite (Nat.div_small n s) by lia.
    rewrite (Nat.div_small (s - 1) s) by lia. reflexivity.
Qed.

Lemma length_every_nth_from {A} (step : nat) (l : list A) (k : nat) :
  0 < step ->
  length (every_nth_from step k l) = ceil_div (length l - k) step.
Proof.
  intros Hs. revert k. induction l as [|x t IH]; intros k.
  - simpl. unfold ceil_div. simpl. rewrite Nat.div_small; lia.
  - destruct k as [|k']; cbn [every_nth_from length].
    + rewrite IH, Nat.sub_0_r. symmetry. apply ceil_div_step. exact Hs.
    + rewrite IH. reflexivity.
Qed.

Lemma Forall_every_nth_from {A} (P : A -> Prop) (step : nat) (l : list A)
    (k : nat) :
  Forall P l -> Forall P (every_nth_from step k l).
Proof.
  intros H. revert k. induction H as [|x t Hx Ht IH]; intros k.
  - constructor.
  - destruct k; cbn [every_nth_from]; [constructor; [exact Hx | apply IH]
                                      | apply IH].
Qed.

Lemma chunks_spec (sz n : nat) (l : list Q) :
  length l = n * sz ->
  length (chunks sz n l) = n /\
  Forall (fun c => length c = sz) (chunks sz n l).
Proof.
  revert l. induction n as [|n IH]; intros l Hl; cbn [chunks].
  - split; [reflexivity | constructor].
  - destruct (IH (skipn sz l)) as [H1 H2].
    { rewrite length_skipn. lia. }
    split; [simpl; rewrite H1; reflexivity |].
    constructor; [| exact H2].
    rewrite length_firstn. lia.
Qed.

Lemma length_concat_map (f : list Q -> list Q) (cs : list (list Q))
    (m : nat) :
  Forall (fun c => length (f c) = m) cs ->
  length (concat (map f cs)) = length cs * m.
Proof.
  induction 1 as [|c cs Hc Hcs IH]; simpl; [reflexivity |].
  rewrite length_app, IH, Hc. reflexivity.
Qed.

Lemma length_slice_flat (s : nat) (sh : list nat) (l : list Q) :
  0 < s -> length l = prod_shape sh ->
  length (slice_flat sh (strided s sh) l)
    = prod_shape (map (fun n => ceil_div n s) sh).
Proof.
  intros Hs. revert l. induction sh as [|d sh IH]; intros l Hl.
  - exact Hl.
  - cbn [strided map slice_flat prod_shape fold_right] in *.
    fold (strided s sh). fold (prod_shape sh) in *.
    fold (prod_shape (map (fun n => ceil_div n s) sh)).
    destruct (chunks_spec (prod_shape sh) d l Hl) as [C1 C2].
    unfold select. cbn [sl_step sl_start sl_stop skipn].
    rewrite firstn_all2 by lia.
    rewrite (length_concat_map _ _
               (prod_shape (map (fun n => ceil_div n s) sh))).
    + rewrite length_every_nth_from by exact Hs.
      rewrite C1, Nat.sub_0_r. reflexivity.
    + apply Forall_every_nth_from.
      eapply Forall_impl; [| exact C2].
      intros c Hc. apply IH. exact Hc.
Qed.

Section WellFormed.
Context {B : Backend}.

(** X15.  What [set_data] uploads is a well-formed array.  If the argument
    holds as many elements as its shape says, then so does the array that
    [set_data] stores and writes to the device, after conversion and
    slicing: it has [ceil(N_i/stride)] entries along each axis and the
    product of these numbers as its element count. *)
Theorem set_data_uploads_well_formed (r : renderer) (data : ndarray)
    (cp : bool) (dt : np_dtype) :
  dtype r = Some dt -> 0 < memMax r -> well_formed data ->
  exists r1 u,
    set_data data true cp r = (Val tt, r1) /\
    _data r1 = Some u /\ well_formed u /\
    (1 < Nstep_of (converted data dt r) r ->
     arr_shape u
       = map (fun n => ceil_div n (Nstep_of (converted data dt r) r))
             (arr_shape data) /\
     length (arr_flat u)
       = prod_shape
           (map (fun n => ceil_div n (Nstep_of (converted data dt r) r))
                (arr_shape data))).
Proof.
  intros Hdt Hm Hw.
  destruct (set_data_run r data true cp dt Hdt Hm (or_introl eq_refl))
    as [r1 [E [_ [_ [_ [U _]]]]]].
  exists r1, (uploaded (converted data dt r) (memMax r)).
  split; [exact E |]. split; [exact U |].
  assert (Wc : well_formed (converted data dt r)).
  { unfold converted, well_formed in *.
    destruct (dtype_in _ _); [exact Hw |].
    cbn. rewrite length_map. exact Hw. }
  assert (Hc : arr_shape (converted data dt r) = arr_shape data).
  { unfold converted. destruct (dtype_in _ _); reflexivity. }
  assert (Sl : forall s, 0 < s ->
             length (arr_flat (getitem (converted data dt r)
                                 (strided s (arr_shape (converted data dt r)))))
             = prod_shape (map (fun n => ceil_div n s) (arr_shape data))).
  { intros s Hs. cbn. rewrite length_slice_flat by assumption.
    rewrite Hc. reflexivity. }
  unfold uploaded, Nstep_of, well_formed.
  rewrite stored_as_length, stored_as_shape.
  destruct (Nat.ltb_spec 1 (ceil_sqrt_ratio (nbytes (converted data dt r))
                                            (memMax r))) as [H | H].
  - split.
    + rewrite Sl by lia. cbn.
      rewrite slice_shape_strided, Hc. reflexivity.
    + intros _. split.
      * cbn. rewrite slice_shape_strided, Hc. reflexivity.
      * apply Sl. lia.
  - split; [exact Wc | intros K; lia].
Qed.

End WellFormed.

Lemma set_data_uploads_well_formed_witness :
  exists r1 u,
    set_data (ones_of float32 [4; 4; 4]) true false
             (snd (VolumeRenderer_init (Some 64) None (Some (2, 2)) blank))
      = (Val tt, r1) /\
    _data r1 = Some u /\ well_formed u.
Proof.
  destruct (@set_data_uploads_well_formed soft_backend
              (snd (VolumeRenderer_init (Some 64) None (Some (2, 2)) blank))
              (ones_of float32 [4; 4; 4]) false float32
              eq_refl ltac:(vm_compute; lia)
              ltac:(vm_compute; reflexivity))
    as [r1 [u [E [U [W _]]]]].
  exists r1, u. auto.
Defined.
